(** * Retrieval tools and tool registry of the course-materials chatbot

    A shallow embedding of [backend/search_tools.py]: the Content Search
    tool ([CourseSearchTool]), the Outline Lookup tool ([CourseOutlineTool])
    and the registry/dispatcher ([ToolManager]), followed by the properties
    the design document states about them.

    Conventions of the embedding.
    - Python [str] is [string]; Python [int] is [Z]; [Optional[T]] is
      [option T]; a missing dictionary key read through [.get] is [None].
    - A call that may raise returns a [result]; [try]/[except] is a match on
      it.  An object mutated by a method is passed in and handed back.
    - A [dict] iterated in insertion order is an association list. *)

From stdpp Require Import base option list strings gmap pretty sorting.
From Stdlib Require Import ZArith Lia Ascii.

Local Open Scope Z_scope.

(** ** Exceptions and the error monad *)

Inductive exn_class := JSONDecodeError | ValueError | TypeError | OtherError.

Record exn := Exn { exn_cls : exn_class; exn_msg : string }.

Inductive result (A : Type) : Type :=
| Ok (a : A)
| Raise (e : exn).
Arguments Ok {A} a.
Arguments Raise {A} e.

Global Instance result_ret : MRet result := λ A a, Ok a.
Global Instance result_bind : MBind result := λ A B f m,
  match m with
  | Ok a => f a
  | Raise e => Raise e
  end.

Definition is_Ok {A} (r : result A) : Prop := ∃ a, r = Ok a.

(** ** Python helpers: truthiness, [str()], [str.join] *)

Definition newline : string := String "010"%char EmptyString.

(** [bool(s)] for a string: the empty string is falsy. *)
Definition truthy_str (s : string) : bool :=
  match s with EmptyString => false | String _ _ => true end.

(** [bool(o)] for an optional string: [None] and [""] are falsy. *)
Definition truthy_opt_str (o : option string) : bool :=
  match o with Some s => truthy_str s | None => false end.

(** [bool(o)] for an optional integer: [None] and [0] are falsy. *)
Definition truthy_opt_int (o : option Z) : bool :=
  match o with Some n => negb (n =? 0) | None => false end.

(** What an f-string prints for an [Optional[int]]. *)
Definition str_opt_int (o : option Z) : string :=
  match o with Some n => pretty n | None => "None" end.

(** [sep.join(parts)]. *)
Definition join (sep : string) (parts : list string) : string :=
  String.concat sep parts.

(** [needle in haystack] on strings. *)
Definition contains (haystack needle : string) : Prop :=
  ∃ pre post, haystack = pre +:+ needle +:+ post.

(** ** Data model *)

(** Modelled from the spec: [models.Source] is declared in [models.py],
    outside the sources at hand.  One citation record, with the fields the
    constructor call in [_format_results] sets. *)
Record Source := {
  course_title : string;
  course_link : option string;
  lesson_number : option Z;
  lesson_title : option string;
  lesson_link : option string;
  citation_number : Z
}.

(** The metadata mapping stored with every retrieved chunk, restricted to
    the two keys the tools read. *)
Record ChunkMeta := {
  md_course_title : option string;
  md_lesson_number : option Z
}.

(** Modelled from the spec: [vector_store.SearchResults] is declared in
    [vector_store.py], outside the sources at hand.  A retrieval result
    set: documents, their metadata, and an optional error message.  The
    [distances] sequence is never read by the tools and is left out. *)
Record SearchResults := {
  documents : list string;
  metadata : list ChunkMeta;
  error : option string
}.

(** Modelled from the spec: [SearchResults.is_empty] lives in
    [vector_store.py], which is not part of the sources at hand; "empty"
    means zero documents.  It is only consulted after the error test. *)
Definition is_empty (r : SearchResults) : bool :=
  match documents r with [] => true | _ => false end.

(** One entry of a course's serialized lesson list. *)
Record LessonDict := {
  ld_lesson_number : option Z;
  ld_lesson_title : option string;
  ld_lesson_link : option string
}.

(** The metadata mapping of one course in the catalog. *)
Record CatalogMeta := {
  cm_course_link : option string;
  cm_instructor : option string;
  cm_lessons_json : option string
}.

(** What [course_catalog.get(ids=[title])] answers: the mapping may lack
    the ['metadatas'] key. *)
Record GetResult := {
  metadatas : option (list CatalogMeta)
}.

(** Modelled from the spec: [vector_store.VectorStore] is declared in
    [vector_store.py], outside the sources at hand.  The retrieval backend
    as the tools call it; [course_catalog_get title] stands for
    [course_catalog.get(ids=[title])].  Every operation may raise. *)
Record VectorStore := {
  search : string → option string → option Z → result SearchResults;
  get_course_link : string → result (option string);
  get_lesson_link : string → Z → result (option string);
  _resolve_course_name : string → result (option string);
  course_catalog_get : string → result (option GetResult)
}.

(** [json.loads] applied to a serialized lesson list.  A payload that is
    valid JSON but not a list of objects makes the code that consumes it
    raise inside the same [try] block; such payloads are represented by a
    [Raise] whose class is not [JSONDecodeError].  A falsy payload is
    [Ok []]. *)
Class Json := json_loads : string → result (list LessonDict).

(** ** Content Search tool *)

Module CourseSearchTool.

Record t := {
  store : VectorStore;
  last_sources : list Source
}.

Definition __init__ (vector_store : VectorStore) : t :=
  {| store := vector_store; last_sources := [] |}.

Definition tool_name : string := "search_course_content".

Definition set_last_sources (self : t) (sources : list Source) : t :=
  {| store := store self; last_sources := sources |}.

(** The [for lesson in lessons] scan of [_get_lesson_title]. *)
Fixpoint find_lesson_title (lessons : list LessonDict) (n : Z)
  : option string :=
  match lessons with
  | [] => None
  | lesson :: rest =>
      if decide (ld_lesson_number lesson = Some n)
      then ld_lesson_title lesson
      else find_lesson_title rest n
  end.

Definition _get_lesson_title_body {J : Json} (self : t)
    (course_title : string) (lesson_number : Z) : result (option string) :=
  results ← course_catalog_get (store self) course_title;
  match results with
  | Some {| metadatas := Some (metadata :: _) |} =>
      match cm_lessons_json metadata with
      | Some lessons_json =>
          if truthy_str lessons_json then
            lessons ← json_loads lessons_json;
            mret (find_lesson_title lessons lesson_number)
          else mret None
      | None => mret None
      end
  | _ => mret None
  end.

(** Any exception is printed and swallowed. *)
Definition _get_lesson_title {J : Json} (self : t)
    (course_title : string) (lesson_number : Z) : option string :=
  match _get_lesson_title_body self course_title lesson_number with
  | Ok r => r
  | Raise _ => None
  end.

Definition meta_title (meta : ChunkMeta) : string :=
  default "unknown" (md_course_title meta).

Definition header_of (course_title : string) (lesson_num : option Z)
  : string :=
  let header := "[" +:+ course_title in
  let header :=
    match lesson_num with
    | Some n => header +:+ " - Lesson " +:+ pretty n
    | None => header
    end in
  header +:+ "]".

Definition source_key (course_title : string) (lesson_num : option Z)
  : string :=
  course_title +:+ "_" +:+ str_opt_int lesson_num.

(** The loop variables of [_format_results]. *)
Record loop_state := {
  formatted : list string;
  sources : list Source;
  seen_sources : gset string
}.

(** One iteration of the loop over [zip(documents, metadata)]. *)
Definition format_step {J : Json} (self : t) (st : loop_state)
    (dm : string * ChunkMeta) : result loop_state :=
  let doc := dm.1 in
  let meta := dm.2 in
  let course_title := meta_title meta in
  let lesson_num := md_lesson_number meta in
  let header := header_of course_title lesson_num in
  let source_key := source_key course_title lesson_num in
  st' ←
    (if decide (source_key ∉ seen_sources st) then
       course_link ← get_course_link (store self) course_title;
       links ←
         match lesson_num with
         | Some n =>
             lesson_link ← get_lesson_link (store self) course_title n;
             mret (lesson_link, _get_lesson_title self course_title n)
         | None => mret (None, None)
         end;
       let source :=
         {| course_title := course_title;
            course_link := course_link;
            lesson_number := lesson_num;
            lesson_title := links.2;
            lesson_link := links.1;
            citation_number := Z.of_nat (length (sources st)) + 1 |} in
       mret {| formatted := formatted st;
               sources := sources st ++ [source];
               seen_sources := {[source_key]} ∪ seen_sources st |}
     else mret st);
  mret {| formatted := formatted st' ++ [header +:+ newline +:+ doc];
          sources := sources st';
          seen_sources := seen_sources st' |}.

Fixpoint format_loop {J : Json} (self : t) (st : loop_state)
    (dms : list (string * ChunkMeta)) : result loop_state :=
  match dms with
  | [] => mret st
  | dm :: rest => st' ← format_step self st dm; format_loop self st' rest
  end.

Definition _format_results {J : Json} (self : t) (results : SearchResults)
  : result (string * t) :=
  st ← format_loop self
         {| formatted := []; sources := []; seen_sources := ∅ |}
         (zip (documents results) (metadata results));
  mret (join (newline +:+ newline) (formatted st),
        set_last_sources self (sources st)).

(** The body of the [try] block of [execute]. *)
Definition execute_body {J : Json} (self : t) (query : string)
    (course_name : option string) (lesson_number : option Z)
  : result (string * t) :=
  results ← search (store self) query course_name lesson_number;
  if truthy_opt_str (error results) then
    mret (default "" (error results), self)
  else if is_empty results then
    let filter_info := "" in
    let filter_info :=
      if truthy_opt_str course_name
      then filter_info +:+ " in course '" +:+ default "" course_name +:+ "'"
      else filter_info in
    let filter_info :=
      if truthy_opt_int lesson_number
      then filter_info +:+ " in lesson " +:+ str_opt_int lesson_number
      else filter_info in
    mret ("No relevant content found" +:+ filter_info +:+ ".", self)
  else _format_results self results.

Definition execute {J : Json} (self : t) (query : string)
    (course_name : option string) (lesson_number : option Z)
  : string * t :=
  match execute_body self query course_name lesson_number with
  | Ok r => r
  | Raise e => ("Search tool error: " +:+ exn_msg e, self)
  end.

(** *** Vocabulary of the formatting properties *)

(** The (course title, lesson number) pair of a chunk and of a citation
    record. *)
Definition pair_of (meta : ChunkMeta) : string * option Z :=
  (meta_title meta, md_lesson_number meta).

Definition source_pair (s : Source) : string * option Z :=
  (course_title s, lesson_number s).

(** The distinct pairs of a sequence in first-seen order: every pair is
    kept where it occurs first and dropped from the rest.  This follows
    the wording of the design document, not the loop of
    [_format_results]. *)
Fixpoint distinct_first_seen (pairs : list (string * option Z))
  : list (string * option Z) :=
  match pairs with
  | [] => []
  | p :: rest => p :: filter (λ q, q ≠ p) (distinct_first_seen rest)
  end.

(** The text block of one retrieved chunk. *)
Definition block_of (dm : string * ChunkMeta) : string :=
  header_of (meta_title dm.2) (md_lesson_number dm.2) +:+ newline +:+ dm.1.

(** The links and the lesson title of a citation record are what the
    backend answers for its course and lesson; a record without lesson
    number has neither lesson link nor lesson title. *)
Definition looked_up {J : Json} (self : t) (s : Source) : Prop :=
  get_course_link (store self) (course_title s) = Ok (course_link s)
  ∧ match lesson_number s with
    | Some n =>
        get_lesson_link (store self) (course_title s) n = Ok (lesson_link s)
        ∧ lesson_title s = _get_lesson_title self (course_title s) n
    | None => lesson_link s = None ∧ lesson_title s = None
    end.

(** The keys in [seen_sources] are the keys of the records in
    [sources]. *)
Definition seen_matches (st : loop_state) : Prop :=
  ∀ k, k ∈ seen_sources st ↔
       ∃ p, p ∈ source_pair <$> sources st ∧ k = source_key p.1 p.2.

(** The backend answers the link lookups for a chunk without raising. *)
Definition links_resolve (self : t) (meta : ChunkMeta) : Prop :=
  is_Ok (get_course_link (store self) (meta_title meta))
  ∧ ∀ n, md_lesson_number meta = Some n →
         is_Ok (get_lesson_link (store self) (meta_title meta) n).

End CourseSearchTool.

(** Characters of a decimal numeral, and strings made of them. *)
Definition decimal_char (c : ascii) : bool :=
  match c with
  | "0" | "1" | "2" | "3" | "4" | "5" | "6" | "7" | "8" | "9" | "-" => true
  | _ => false
  end%char.

Definition not_underscore (c : ascii) : bool :=
  negb (Ascii.eqb c "_").

Fixpoint all_chars (p : ascii → bool) (s : string) : bool :=
  match s with
  | EmptyString => true
  | String c s' => p c && all_chars p s'
  end.

(** ** Outline Lookup tool *)

Module CourseOutlineTool.

Record t := {
  store : VectorStore;
  last_sources : list Source
}.

Definition __init__ (vector_store : VectorStore) : t :=
  {| store := vector_store; last_sources := [] |}.

Definition tool_name : string := "get_course_outline".

(** The sort key [lambda x: x.get('lesson_number', 0)]. *)
Definition sort_key (x : LessonDict) : Z := default 0 (ld_lesson_number x).

(** Ascending order of the sort keys, weak and strict. *)
Definition key_le (x y : LessonDict) : Prop := sort_key x ≤ sort_key y.
Definition key_lt (x y : LessonDict) : Prop := sort_key x < sort_key y.

(** Python's [sorted(lessons, key=...)] is a stable sort: elements with
    equal keys keep their input order.  Stable insertion sort computes the
    same list. *)
Fixpoint insert_by_key (x : LessonDict) (l : list LessonDict)
  : list LessonDict :=
  match l with
  | [] => [x]
  | y :: l' =>
      if decide (sort_key x ≤ sort_key y) then x :: y :: l'
      else y :: insert_by_key x l'
  end.

Fixpoint sorted (lessons : list LessonDict) : list LessonDict :=
  match lessons with
  | [] => []
  | x :: rest => insert_by_key x (sorted rest)
  end.

(** The body of the loop over the sorted lessons: one output line. *)
Definition lesson_line (lesson : LessonDict) : string :=
  let lesson_num :=
    match ld_lesson_number lesson with
    | Some n => pretty n
    | None => "?"
    end in
  let lesson_title := default "Untitled" (ld_lesson_title lesson) in
  let lesson_link := ld_lesson_link lesson in
  let lesson_line := "  " +:+ lesson_num +:+ ". " +:+ lesson_title in
  if truthy_opt_str lesson_link
  then lesson_line +:+ " - " +:+ default "" lesson_link
  else lesson_line.

(** The lines that precede the lessons. *)
Definition header_lines (title course_link instructor : string)
    (lessons : list LessonDict) : list string :=
  let output := ["Course: " +:+ title] in
  let output :=
    if truthy_str course_link && negb (String.eqb course_link "No link available")
    then output ++ ["Link: " +:+ course_link]
    else output in
  let output :=
    if truthy_str instructor && negb (String.eqb instructor "Unknown")
    then output ++ ["Instructor: " +:+ instructor]
    else output in
  output ++ [newline +:+ "Lessons (" +:+ pretty (length lessons) +:+ " total):"].

Definition _format_outline (title course_link instructor : string)
    (lessons : list LessonDict) : string :=
  let output := header_lines title course_link instructor lessons in
  let sorted_lessons := sorted lessons in
  let output := output ++ map lesson_line sorted_lessons in
  join newline output.

(** The body of the [try] block of [execute]. *)
Definition execute_body {J : Json} (self : t) (course_name : string)
  : result string :=
  resolved ← _resolve_course_name (store self) course_name;
  if negb (truthy_opt_str resolved) then
    mret ("No course found matching '" +:+ course_name +:+
          "'. Please try a different course name or check available courses.")
  else
    let course_title := default "" resolved in
    results ← course_catalog_get (store self) course_title;
    match results with
    | Some {| metadatas := Some (metadata :: _) |} =>
        let course_link := default "No link available" (cm_course_link metadata) in
        let instructor := default "Unknown" (cm_instructor metadata) in
        let lessons_json := cm_lessons_json metadata in
        if negb (truthy_opt_str lessons_json) then
          mret ("Course '" +:+ course_title +:+
                "' has no lessons information available.")
        else
          lessons ← json_loads (default "" lessons_json);
          match lessons with
          | [] =>
              mret ("Course '" +:+ course_title +:+
                    "' has an empty lessons list.")
          | _ :: _ =>
              mret (_format_outline course_title course_link instructor lessons)
          end
    | _ =>
        mret ("Course '" +:+ course_title +:+
              "' exists but has no metadata available.")
    end.

(** The two [except] clauses; no path assigns [last_sources]. *)
Definition execute {J : Json} (self : t) (course_name : string) : string * t :=
  match execute_body self course_name with
  | Ok text => (text, self)
  | Raise {| exn_cls := JSONDecodeError; exn_msg := msg |} =>
      ("Error parsing lessons data for course '" +:+ course_name +:+ "': " +:+ msg,
       self)
  | Raise e => ("Error retrieving course outline: " +:+ exn_msg e, self)
  end.

(** [self.store = vector_store]. *)
Definition set_store (self : t) (vector_store : VectorStore) : t :=
  {| store := vector_store; last_sources := last_sources self |}.

(** A sequence of [execute] calls on one tool object.  Each call comes
    with the backend that answers it, so the backend may behave
    differently from call to call. *)
Fixpoint execute_all {J : Json} (self : t)
    (calls : list (VectorStore * string)) : t :=
  match calls with
  | [] => self
  | call :: rest =>
      execute_all (execute (set_store self call.1) call.2).2 rest
  end.

End CourseOutlineTool.

(** ** The [Tool] interface and the registry *)

(** The keyword arguments of a dispatch, as the two declared schemas shape
    them. *)
Inductive kwargs :=
| SearchArgs (query : string) (course_name : option string)
    (lesson_number : option Z)
| OutlineArgs (course_name : string).

(** Any other implementation of the [Tool] interface.  Its mutable state is
    what its definition currently declares as name (possibly none) and its
    [last_sources] attribute (possibly absent).  Its [execute] is arbitrary:
    [run] reads the arguments and the state, returns or raises, and leaves a
    new state behind, so a call may change the name the tool declares as
    well as what it holds. *)
Module CustomTool.

Record t := {
  definition_name : option string;
  last_sources : option (list Source);
  run : kwargs → option string → option (list Source) →
        result string * option string * option (list Source)
}.

Definition set_last_sources (self : t) (v : option (list Source)) : t :=
  {| definition_name := definition_name self;
     last_sources := v;
     run := run self |}.

Definition execute (self : t) (args : kwargs) : result string * t :=
  let r := run self args (definition_name self) (last_sources self) in
  (r.1.1,
   {| definition_name := r.1.2; last_sources := r.2; run := run self |}).

End CustomTool.

Inductive Tool :=
| Search (tool : CourseSearchTool.t)
| Outline (tool : CourseOutlineTool.t)
| Custom (tool : CustomTool.t).

Module ToolOps.

(** [tool.get_tool_definition().get("name")]. *)
Definition definition_name (tool : Tool) : option string :=
  match tool with
  | Search _ => Some CourseSearchTool.tool_name
  | Outline _ => Some CourseOutlineTool.tool_name
  | Custom c => CustomTool.definition_name c
  end.

(** [tool.last_sources], [None] when [hasattr] is false. *)
Definition last_sources (tool : Tool) : option (list Source) :=
  match tool with
  | Search s => Some (CourseSearchTool.last_sources s)
  | Outline o => Some (CourseOutlineTool.last_sources o)
  | Custom c => CustomTool.last_sources c
  end.

(** [tool.last_sources = []]. *)
Definition reset (tool : Tool) : Tool :=
  match tool with
  | Search s => Search (CourseSearchTool.set_last_sources s [])
  | Outline o =>
      Outline {| CourseOutlineTool.store := CourseOutlineTool.store o;
                 CourseOutlineTool.last_sources := [] |}
  | Custom c => Custom (CustomTool.set_last_sources c (Some []))
  end.

(** [tool.execute] called with the keyword arguments.  Arguments arguments that do not fit the
    signature make the call itself raise [TypeError], before the body and
    its [try] block are entered. *)
Definition execute {J : Json} (tool : Tool) (args : kwargs)
  : result string * Tool :=
  match tool, args with
  | Search s, SearchArgs query course_name lesson_number =>
      let r := CourseSearchTool.execute s query course_name lesson_number in
      (Ok r.1, Search r.2)
  | Search _, OutlineArgs _ =>
      (Raise (Exn TypeError
         "CourseSearchTool.execute() missing 1 required positional argument: 'query'"),
       tool)
  | Outline o, OutlineArgs course_name =>
      let r := CourseOutlineTool.execute o course_name in
      (Ok r.1, Outline r.2)
  | Outline _, SearchArgs _ _ _ =>
      (Raise (Exn TypeError
         "CourseOutlineTool.execute() got an unexpected keyword argument 'query'"),
       tool)
  | Custom c, _ =>
      let r := CustomTool.execute c args in
      (r.1, Custom r.2)
  end.

End ToolOps.

Module ToolManager.

(** [self.tools]: a [dict] from declared name to tool, in insertion
    order. *)
Record t := {
  tools : list (string * Tool)
}.

Definition __init__ : t := {| tools := [] |}.

(** [d[k]] lookup. *)
Fixpoint dict_get (d : list (string * Tool)) (k : string) : option Tool :=
  match d with
  | [] => None
  | kv :: rest => if decide (kv.1 = k) then Some kv.2 else dict_get rest k
  end.

(** [d[k] = v]: an existing key keeps its position, a new key goes to the
    end. *)
Fixpoint dict_set (d : list (string * Tool)) (k : string) (v : Tool)
  : list (string * Tool) :=
  match d with
  | [] => [(k, v)]
  | kv :: rest =>
      if decide (kv.1 = k) then (k, v) :: rest
      else kv :: dict_set rest k v
  end.

Definition register_tool (self : t) (tool : Tool) : result t :=
  let tool_name := ToolOps.definition_name tool in
  if negb (truthy_opt_str tool_name) then
    Raise (Exn ValueError "Tool must have a 'name' in its definition")
  else
    mret {| tools := dict_set (tools self) (default "" tool_name) tool |}.

(** The [name] entry of every registered definition, in [dict] order. *)
Definition get_tool_definitions (self : t) : list (option string) :=
  map (λ kv, ToolOps.definition_name kv.2) (tools self).

Definition execute_tool {J : Json} (self : t) (tool_name : string)
    (args : kwargs) : result string * t :=
  match dict_get (tools self) tool_name with
  | None =>
      (Raise (Exn ValueError ("Tool '" +:+ tool_name +:+ "' not found")), self)
  | Some tool =>
      let r := ToolOps.execute tool args in
      (r.1, {| tools := dict_set (tools self) tool_name r.2 |})
  end.

(** [hasattr(tool, 'last_sources') and tool.last_sources]. *)
Definition holds (tool : Tool) : bool :=
  match ToolOps.last_sources tool with
  | Some (_ :: _) => true
  | _ => false
  end.

(** The loop of [get_last_sources] over [self.tools.values()]: it returns
    from inside the loop at the first tool that holds sources. *)
Fixpoint drain (d : list (string * Tool))
  : list Source * list (string * Tool) :=
  match d with
  | [] => ([], [])
  | kv :: rest =>
      if holds kv.2 then
        let sources := default [] (ToolOps.last_sources kv.2) in
        (sources, (kv.1, ToolOps.reset kv.2) :: rest)
      else
        let r := drain rest in
        (r.1, kv :: r.2)
  end.

Definition get_last_sources (self : t) : list Source * t :=
  let r := drain (tools self) in
  (r.1, {| tools := r.2 |}).

Definition reset_sources (self : t) : t :=
  {| tools :=
       map (λ kv, match ToolOps.last_sources kv.2 with
                  | Some _ => (kv.1, ToolOps.reset kv.2)
                  | None => kv
                  end) (tools self) |}.

(** *** Vocabulary of the registry properties *)

(** Every citation record held by any registered tool, in registration
    order of the owning tools. *)
Definition all_citations (self : t) : list Source :=
  concat (map (λ kv, default [] (ToolOps.last_sources kv.2)) (tools self)).

(** No registered tool holds a citation record. *)
Definition all_drained (self : t) : Prop :=
  Forall (λ kv, holds kv.2 = false) (tools self).

(** How many registered tools hold citation records. *)
Definition holders (self : t) : nat :=
  length (filter (λ kv, holds kv.2 = true) (tools self)).

End ToolManager.

(** ** Sequences of calls *)

(** A registry driven by its four operations. *)
Module RegistryOps.

Inductive op :=
| Register (tool : Tool)
| Dispatch (name : string) (args : kwargs)
| Drain
| Reset.

(** One operation; what it returns or raises is dropped, the registry it
    leaves behind is kept. *)
Definition step {J : Json} (m : ToolManager.t) (o : op) : ToolManager.t :=
  match o with
  | Register tool =>
      match ToolManager.register_tool m tool with
      | Ok m' => m'
      | Raise _ => m
      end
  | Dispatch name args => (ToolManager.execute_tool m name args).2
  | Drain => (ToolManager.get_last_sources m).2
  | Reset => ToolManager.reset_sources m
  end.

Definition run {J : Json} (m : ToolManager.t) (ops : list op)
  : ToolManager.t :=
  foldl step m ops.

(** Every tool sits under the non-empty name its own definition declares,
    and no name occurs twice. *)
Definition well_keyed (m : ToolManager.t) : Prop :=
  NoDup (ToolManager.tools m).*1
  ∧ Forall (λ kv, ToolOps.definition_name kv.2 = Some kv.1
                  ∧ truthy_str kv.1 = true) (ToolManager.tools m).

(** A tool whose [execute] never changes the name its definition declares.
    The two retrieval tools declare a constant name. *)
Definition name_stable (tool : Tool) : Prop :=
  match tool with
  | Search _ | Outline _ => True
  | Custom c =>
      ∀ args name held, (CustomTool.run c args name held).1.2 = name
  end.

(** An entry as the operations keep it: filed under the non-empty name the
    tool declares, the tool name-stable. *)
Definition stable_entry (kv : string * Tool) : Prop :=
  (ToolOps.definition_name kv.2 = Some kv.1 ∧ truthy_str kv.1 = true)
  ∧ name_stable kv.2.

(** Every tool that the operations register is name-stable. *)
Definition registers_name_stable (ops : list op) : Prop :=
  Forall (λ o, match o with
               | Register tool => name_stable tool
               | _ => True
               end) ops.

End RegistryOps.

(** [get_last_sources] called [n] times in a row; the lists it returns, in
    order, and the registry left behind. *)
Module RepeatedDrain.

Fixpoint drain_times (n : nat) (m : ToolManager.t)
  : list (list Source) * ToolManager.t :=
  match n with
  | O => ([], m)
  | S n' =>
      let r := ToolManager.get_last_sources m in
      let rest := drain_times n' r.2 in
      (r.1 :: rest.1, rest.2)
  end.

End RepeatedDrain.

(** One Content Search tool object called again and again. *)
Module SearchSession.

(** [self.store = vector_store]. *)
Definition set_store (self : CourseSearchTool.t) (vector_store : VectorStore)
  : CourseSearchTool.t :=
  {| CourseSearchTool.store := vector_store;
     CourseSearchTool.last_sources := CourseSearchTool.last_sources self |}.

(** One call: the backend that answers it and the arguments. *)
Record call := {
  call_store : VectorStore;
  call_query : string;
  call_course_name : option string;
  call_lesson_number : option Z
}.

Fixpoint execute_all {J : Json} (self : CourseSearchTool.t)
    (calls : list call) : CourseSearchTool.t :=
  match calls with
  | [] => self
  | c :: rest =>
      execute_all
        (CourseSearchTool.execute (set_store self (call_store c))
           (call_query c) (call_course_name c) (call_lesson_number c)).2
        rest
  end.

(** No two records for the same (course title, lesson number) pair, and
    citation numbers 1, 2, ..., k. *)
Definition well_numbered (cited : list Source) : Prop :=
  NoDup (CourseSearchTool.source_pair <$> cited)
  ∧ citation_number <$> cited = seqZ 1 (Z.of_nat (length cited)).

End SearchSession.

(** * Sample backends and registries

    Concrete values in the shape of the fixtures of [tests/conftest.py],
    used to run the definitions above. *)

Module Samples.

Definition dq : string := String (ascii_of_nat 34) EmptyString.
Definition quoted (s : string) : string := dq +:+ s +:+ dq.

Definition rag_title : string := "Introduction to RAG Systems".
Definition rag_link : string := "https://example.com/rag-course".
Definition lesson0_link : string := "https://example.com/rag-course/lesson-0".

Definition rag_lessons : list LessonDict :=
  [ {| ld_lesson_number := Some 0;
       ld_lesson_title := Some "What is RAG?";
       ld_lesson_link := Some lesson0_link |};
    {| ld_lesson_number := Some 1;
       ld_lesson_title := Some "Vector Embeddings";
       ld_lesson_link := Some "https://example.com/rag-course/lesson-1" |} ].

Definition rag_lessons_json : string :=
  "[{" +:+ quoted "lesson_number" +:+ ": 0, " +:+
  quoted "lesson_title" +:+ ": " +:+ quoted "What is RAG?" +:+ ", " +:+
  quoted "lesson_link" +:+ ": " +:+ quoted lesson0_link +:+ "}, {" +:+
  quoted "lesson_number" +:+ ": 1, " +:+
  quoted "lesson_title" +:+ ": " +:+ quoted "Vector Embeddings" +:+ ", " +:+
  quoted "lesson_link" +:+ ": " +:+
  quoted "https://example.com/rag-course/lesson-1" +:+ "}]".

(** A parser that knows the one payload of the fixtures. *)
Definition sample_json : Json := λ s,
  if decide (s = rag_lessons_json) then Ok rag_lessons
  else Raise (Exn JSONDecodeError "Expecting value: line 1 column 1 (char 0)").

Definition rag_meta (n : Z) : ChunkMeta :=
  {| md_course_title := Some rag_title; md_lesson_number := Some n |}.

(** Three chunks, the first two from the same lesson 0. *)
Definition rag_results : SearchResults :=
  {| documents :=
       [ "RAG stands for Retrieval-Augmented Generation.";
         "It combines retrieval with generation.";
         "Vector embeddings are numerical representations of text." ];
     metadata := [ rag_meta 0; rag_meta 0; rag_meta 1 ];
     error := None |}.

Definition no_results : SearchResults :=
  {| documents := []; metadata := []; error := None |}.

Definition failed_results (msg : string) : SearchResults :=
  {| documents := []; metadata := []; error := Some msg |}.

Definition sample_store : VectorStore :=
  {| search := λ query course_name lesson_number,
       if decide (query = "What is RAG?") then Ok rag_results
       else if decide (query = "crash")
       then Raise (Exn OtherError "Database connection error")
       else if decide (course_name = Some "Nonexistent Course")
       then Ok (failed_results "No course found matching 'Nonexistent Course'")
       else Ok no_results;
     get_course_link := λ _, Ok (Some rag_link);
     get_lesson_link := λ _ _, Ok (Some lesson0_link);
     _resolve_course_name := λ name,
       if decide (name = "Nonexistent Course") then Ok None
       else Ok (Some rag_title);
     course_catalog_get := λ _,
       Ok (Some {| metadatas :=
                     Some [ {| cm_course_link := Some rag_link;
                               cm_instructor := Some "Dr. Jane Smith";
                               cm_lessons_json := Some rag_lessons_json |} ] |})
  |}.

Definition search_tool : CourseSearchTool.t :=
  CourseSearchTool.__init__ sample_store.

Definition outline_tool : CourseOutlineTool.t :=
  CourseOutlineTool.__init__ sample_store.

Definition citation (title : string) (n : Z) : Source :=
  {| course_title := title; course_link := None; lesson_number := None;
     lesson_title := None; lesson_link := None; citation_number := n |}.

(** Two further implementations of the [Tool] interface, each holding one
    citation record, and one whose definition has no name. *)
Definition notes_tool : CustomTool.t :=
  {| CustomTool.definition_name := Some "search_notes";
     CustomTool.last_sources := Some [citation "Notes" 1];
     CustomTool.run := λ _ name held, (Ok "notes", name, held) |}.

Definition forum_tool : CustomTool.t :=
  {| CustomTool.definition_name := Some "search_forum";
     CustomTool.last_sources := Some [citation "Forum" 1];
     CustomTool.run := λ _ name held, (Ok "forum", name, held) |}.

Definition nameless_tool : CustomTool.t :=
  {| CustomTool.definition_name := None;
     CustomTool.last_sources := None;
     CustomTool.run := λ _ name held, (Ok "", name, held) |}.

(** A second tool that declares the name of the Content Search tool. *)
Definition impostor_tool : CustomTool.t :=
  {| CustomTool.definition_name := Some CourseSearchTool.tool_name;
     CustomTool.last_sources := None;
     CustomTool.run := λ _ name held, (Ok "impostor", name, held) |}.

(** The registry after registering [notes_tool] and then [forum_tool]. *)
Definition two_holders : ToolManager.t :=
  {| ToolManager.tools :=
       [ ("search_notes", Custom notes_tool);
         ("search_forum", Custom forum_tool) ] |}.

(** The registry of the application: search tool, then outline tool. *)
Definition app_registry : ToolManager.t :=
  {| ToolManager.tools :=
       [ (CourseSearchTool.tool_name, Search search_tool);
         (CourseOutlineTool.tool_name, Outline outline_tool) ] |}.

Definition rag_query : kwargs := SearchArgs "What is RAG?" None None.

(** The application's registry after one dispatched search. *)
Definition searched_registry : ToolManager.t :=
  (ToolManager.execute_tool (J := sample_json) app_registry
     CourseSearchTool.tool_name rag_query).2.

(** Lessons with the same number, in two orders. *)
Definition part_a : LessonDict :=
  {| ld_lesson_number := Some 1; ld_lesson_title := Some "Part A";
     ld_lesson_link := None |}.
Definition part_b : LessonDict :=
  {| ld_lesson_number := Some 1; ld_lesson_title := Some "Part B";
     ld_lesson_link := None |}.

(** The lesson list of [test_format_outline_sorting], as stored and in
    ascending order. *)
Definition first_lesson : LessonDict :=
  {| ld_lesson_number := Some 0; ld_lesson_title := Some "First Lesson";
     ld_lesson_link := None |}.
Definition second_lesson : LessonDict :=
  {| ld_lesson_number := Some 1; ld_lesson_title := Some "Second Lesson";
     ld_lesson_link := None |}.
Definition third_lesson : LessonDict :=
  {| ld_lesson_number := Some 2; ld_lesson_title := Some "Third Lesson";
     ld_lesson_link := Some "https://example.com/course/lesson-2" |}.

Definition unsorted_lessons : list LessonDict :=
  [third_lesson; first_lesson; second_lesson].
Definition ordered_lessons : list LessonDict :=
  [first_lesson; second_lesson; third_lesson].

End Samples.

(** Further sample values: a backend whose catalog is down, a tool that
    still holds a record, and a short session. *)
Module MoreSamples.

(** The search works, the link lookups raise. *)
Definition linkless_store : VectorStore :=
  {| search := search Samples.sample_store;
     get_course_link := λ _, Raise (Exn OtherError "catalog unavailable");
     get_lesson_link := λ _ _, Raise (Exn OtherError "catalog unavailable");
     _resolve_course_name := _resolve_course_name Samples.sample_store;
     course_catalog_get := λ _, Raise (Exn OtherError "catalog unavailable") |}.

Definition earlier_citation : Source := Samples.citation "Earlier course" 1.

Definition linkless_tool : CourseSearchTool.t :=
  {| CourseSearchTool.store := linkless_store;
     CourseSearchTool.last_sources := [earlier_citation] |}.

Definition holding_tool : CourseSearchTool.t :=
  {| CourseSearchTool.store := Samples.sample_store;
     CourseSearchTool.last_sources := [earlier_citation] |}.

(** A tool whose [execute] changes the name its definition declares. *)
Definition renaming_tool : CustomTool.t :=
  {| CustomTool.definition_name := Some "alpha";
     CustomTool.last_sources := None;
     CustomTool.run := λ _ _ held, (Ok "renamed", Some "beta", held) |}.

(** Register both retrieval tools, run a search, collect its citations. *)
Definition app_session : list RegistryOps.op :=
  [ RegistryOps.Register (Search Samples.search_tool);
    RegistryOps.Register (Outline Samples.outline_tool);
    RegistryOps.Dispatch CourseSearchTool.tool_name Samples.rag_query;
    RegistryOps.Drain ].

(** More documents than metadata entries. *)
Definition surplus_results : SearchResults :=
  {| documents := ["First passage."; "Second passage."; "Third passage."];
     metadata := [Samples.rag_meta 0; Samples.rag_meta 1];
     error := None |}.

End MoreSamples.

(** * Properties *)

(** ** Strings *)

Section Strings.
Implicit Types (s : string) (c : ascii).

Lemma string_app_nil s : "" +:+ s = s.
Proof. reflexivity. Qed.

Lemma string_app_cons c s1 s2 : String c s1 +:+ s2 = String c (s1 +:+ s2).
Proof. reflexivity. Qed.

Lemma string_app_nil_r s : s +:+ "" = s.
Proof.
  induction s as [|c s IH]; [done|].
  rewrite string_app_cons. by f_equal.
Qed.

Lemma string_app_assoc s1 s2 s3 : (s1 +:+ s2) +:+ s3 = s1 +:+ s2 +:+ s3.
Proof.
  induction s1 as [|c s1 IH]; [done|].
  rewrite !string_app_cons. by f_equal.
Qed.

End Strings.

(** ** The registry: draining citations *)

Section Drain.
Import ToolManager.

Implicit Types (d : list (string * Tool)) (tool : Tool).

Lemma holds_reset tool : holds (ToolOps.reset tool) = false.
Proof. by destruct tool. Qed.

Lemma not_holds_no_sources tool :
  holds tool = false → default [] (ToolOps.last_sources tool) = [].
Proof.
  unfold holds. destruct (ToolOps.last_sources tool) as [[|s ss]|]; done.
Qed.

Lemma holds_sources tool :
  holds tool = true → default [] (ToolOps.last_sources tool) ≠ [].
Proof.
  unfold holds. destruct (ToolOps.last_sources tool) as [[|s ss]|]; done.
Qed.

Lemma drain_no_holder d :
  Forall (λ kv, holds kv.2 = false) d → drain d = ([], d).
Proof.
  induction 1 as [|kv d Hkv _ IH]; simpl; [done|].
  by rewrite Hkv, IH.
Qed.

(** The general behaviour: the first holder, in registration order, is the
    only tool read and the only tool reset. *)
Lemma drain_first_holder d pre kv post :
  d = pre ++ kv :: post →
  Forall (λ kv, holds kv.2 = false) pre →
  holds kv.2 = true →
  drain d =
    (default [] (ToolOps.last_sources kv.2),
     pre ++ (kv.1, ToolOps.reset kv.2) :: post).
Proof.
  intros -> Hpre Hkv. induction Hpre as [|kv' pre Hkv' _ IH]; simpl.
  - by rewrite Hkv.
  - by rewrite Hkv', IH.
Qed.

Lemma drain_empty_iff d :
  (drain d).1 = [] ↔ Forall (λ kv, holds kv.2 = false) d.
Proof.
  split.
  - induction d as [|kv d IH]; simpl; [done|].
    destruct (holds kv.2) eqn:Hkv; simpl.
    + intros He. by apply holds_sources in Hkv.
    + intros He. constructor; auto.
  - intros Hd. by rewrite drain_no_holder.
Qed.

Lemma drain_holders d :
  length (filter (λ kv, holds kv.2 = true) (drain d).2)
  = pred (length (filter (λ kv, holds kv.2 = true) d)).
Proof.
  induction d as [|kv d IH]; simpl; [done|].
  destruct (holds kv.2) eqn:Hkv; simpl.
  - rewrite filter_cons_False by (simpl; by rewrite holds_reset).
    by rewrite filter_cons_True.
  - rewrite !filter_cons_False by (simpl; by rewrite Hkv). done.
Qed.

Lemma no_holders_Forall d :
  length (filter (λ kv, holds kv.2 = true) d) = 0%nat ↔
  Forall (λ kv, holds kv.2 = false) d.
Proof.
  induction d as [|kv d IH]; simpl; [by split|].
  rewrite filter_cons. case_decide as Hkv; simpl.
  - split; [done|]. inversion 1; congruence.
  - rewrite IH. split.
    + intros. constructor; [by destruct (holds kv.2)|done].
    + by inversion 1.
Qed.

Lemma drain_at_most_one d :
  (length (filter (λ kv, holds kv.2 = true) d) ≤ 1)%nat →
  (drain d).1 = concat (map (λ kv, default [] (ToolOps.last_sources kv.2)) d)
  ∧ Forall (λ kv, holds kv.2 = false) (drain d).2.
Proof.
  induction d as [|kv d IH]; simpl; [done|].
  rewrite filter_cons. destruct (holds kv.2) eqn:Hkv; simpl.
  - intros Hle.
    assert (Forall (λ kv, holds kv.2 = false) d) as Hd
      by (apply no_holders_Forall; lia).
    split.
    + assert (concat (map (λ kv, default [] (ToolOps.last_sources kv.2)) d)
              = []) as ->; [|by rewrite app_nil_r].
      clear -Hd. induction Hd as [|kv' d Hkv' _ IH']; simpl; [done|].
      by rewrite not_holds_no_sources, IH'.
    + constructor; [apply holds_reset|done].
  - intros Hle.
    destruct (IH Hle) as [-> Hall].
    rewrite not_holds_no_sources by done. split; [done|].
    by constructor.
Qed.

End Drain.

Example two_holders_registered :
  (m ← ToolManager.register_tool ToolManager.__init__ (Custom Samples.notes_tool);
   ToolManager.register_tool m (Custom Samples.forum_tool))
  = Ok Samples.two_holders.
Proof. reflexivity. Qed.

Example app_registry_registered :
  (m ← ToolManager.register_tool ToolManager.__init__ (Search Samples.search_tool);
   ToolManager.register_tool m (Outline Samples.outline_tool))
  = Ok Samples.app_registry.
Proof. reflexivity. Qed.

Example searched_registry_sources :
  map (λ s, (lesson_number s, citation_number s))
      (ToolManager.all_citations Samples.searched_registry)
  = [(Some 0, 1); (Some 1, 2)].
Proof. vm_compute. reflexivity. Qed.

(** C1, as stated, fails: with two tools holding citation records, one call
    to [get_last_sources] returns the records of the first tool only and the
    second tool still holds its records afterwards. *)
Lemma get_last_sources_misses_second_holder :
  (ToolManager.get_last_sources Samples.two_holders).1
    = [Samples.citation "Notes" 1]
  ∧ ToolManager.all_citations Samples.two_holders
    = [Samples.citation "Notes" 1; Samples.citation "Forum" 1]
  ∧ (ToolManager.get_last_sources Samples.two_holders).1
    ≠ ToolManager.all_citations Samples.two_holders
  ∧ ¬ ToolManager.all_drained
        (ToolManager.get_last_sources Samples.two_holders).2.
Proof.
  repeat split; try done.
  intros Hall. apply Forall_cons in Hall as [_ Hall].
  apply Forall_cons in Hall as [Hforum _]. done.
Qed.

(** C1 (amended): for every registry state in which at most one registered
    tool holds citation records, a single call to [get_last_sources] returns
    all citation records accumulated by the registered tools, and afterwards
    no registered tool holds a citation record. *)
Theorem get_last_sources_single_holder (m : ToolManager.t) :
  (ToolManager.holders m ≤ 1)%nat →
  (ToolManager.get_last_sources m).1 = ToolManager.all_citations m
  ∧ ToolManager.all_drained (ToolManager.get_last_sources m).2.
Proof.
  intros Hle. unfold ToolManager.get_last_sources, ToolManager.all_citations,
    ToolManager.all_drained; simpl.
  by apply drain_at_most_one.
Qed.

Lemma get_last_sources_single_holder_witness :
  (ToolManager.holders Samples.searched_registry ≤ 1)%nat
  ∧ (ToolManager.get_last_sources Samples.searched_registry).1
    = ToolManager.all_citations Samples.searched_registry
  ∧ ToolManager.all_drained
      (ToolManager.get_last_sources Samples.searched_registry).2.
Proof.
  split; [vm_compute; lia|].
  apply (get_last_sources_single_holder Samples.searched_registry).
  vm_compute; lia.
Defined.

(** C4, as stated, fails: with two tools holding citation records and no
    dispatch in between, the second call to [get_last_sources] is not empty;
    it returns the records of the second tool. *)
Lemma get_last_sources_second_call_not_empty :
  (1 ≤ ToolManager.holders Samples.two_holders)%nat
  ∧ (ToolManager.get_last_sources
       (ToolManager.get_last_sources Samples.two_holders).2).1
    = [Samples.citation "Forum" 1]
  ∧ (ToolManager.get_last_sources
       (ToolManager.get_last_sources Samples.two_holders).2).1 ≠ [].
Proof. split; [vm_compute; lia|]. split; done. Qed.

(** C4 (amended): for every registry state in which at least one tool holds
    citation records, the first of two consecutive calls to
    [get_last_sources] returns a non-empty list, and the second call returns
    the empty list exactly when a single tool held records. *)
Theorem get_last_sources_twice (m : ToolManager.t) :
  (1 ≤ ToolManager.holders m)%nat →
  (ToolManager.get_last_sources m).1 ≠ []
  ∧ ((ToolManager.get_last_sources
        (ToolManager.get_last_sources m).2).1 = []
     ↔ ToolManager.holders m = 1%nat).
Proof.
  unfold ToolManager.get_last_sources, ToolManager.holders; simpl.
  intros Hge. split.
  - rewrite drain_empty_iff, <-no_holders_Forall. lia.
  - rewrite drain_empty_iff, <-no_holders_Forall, drain_holders. lia.
Qed.

Lemma get_last_sources_twice_witness :
  (1 ≤ ToolManager.holders Samples.searched_registry)%nat
  ∧ (ToolManager.get_last_sources Samples.searched_registry).1 ≠ []
  ∧ ((ToolManager.get_last_sources
        (ToolManager.get_last_sources Samples.searched_registry).2).1 = []
     ↔ ToolManager.holders Samples.searched_registry = 1%nat).
Proof.
  split; [vm_compute; lia|].
  apply (get_last_sources_twice Samples.searched_registry).
  vm_compute; lia.
Defined.

(** ** The registry: registration and dispatch *)

Section Registry.
Import ToolManager.

Implicit Types (d : list (string * Tool)) (tool : Tool) (k : string).

Lemma dict_get_set_eq d k tool : dict_get (dict_set d k tool) k = Some tool.
Proof.
  induction d as [|kv d IH]; simpl.
  - by rewrite decide_True.
  - destruct (decide (kv.1 = k)) as [Heq|Hne]; simpl.
    + by rewrite decide_True.
    + by rewrite decide_False.
Qed.

Lemma dict_get_set_ne d k k' tool :
  k ≠ k' → dict_get (dict_set d k tool) k' = dict_get d k'.
Proof.
  intros Hne. induction d as [|kv d IH]; simpl.
  - by rewrite decide_False.
  - destruct (decide (kv.1 = k)) as [Heq|Hne']; simpl.
    + rewrite decide_False by done. rewrite decide_False by congruence. done.
    + by rewrite IH.
Qed.

(** Assigning to a key that is present keeps the keys and their order. *)
Lemma dict_set_keys d k tool :
  is_Some (dict_get d k) → (dict_set d k tool).*1 = d.*1.
Proof.
  induction d as [|kv d IH]; simpl.
  - by intros [? ?].
  - destruct (decide (kv.1 = k)) as [Heq|Hne]; simpl; intros Hk.
    + by rewrite Heq.
    + f_equal. by apply IH.
Qed.

Lemma contains_middle (pre s post : string) : contains (pre +:+ s +:+ post) s.
Proof. by exists pre, post. Qed.

End Registry.

(** C8: [register_tool] raises when the tool's definition has no name, and
    when the declared name is already registered it does not raise but
    replaces the earlier tool under that name, keeping the registered names
    as they were, so that a later dispatch to the name runs the tool
    registered last. *)
Theorem register_tool_overwrites (m : ToolManager.t) (tool : Tool) :
  (truthy_opt_str (ToolOps.definition_name tool) = false →
   ToolManager.register_tool m tool
   = Raise (Exn ValueError "Tool must have a 'name' in its definition"))
  ∧ (∀ name old,
       ToolOps.definition_name tool = Some name →
       truthy_str name = true →
       ToolManager.dict_get (ToolManager.tools m) name = Some old →
       ∃ m',
         ToolManager.register_tool m tool = Ok m'
         ∧ ToolManager.dict_get (ToolManager.tools m') name = Some tool
         ∧ (ToolManager.tools m').*1 = (ToolManager.tools m).*1
         ∧ ∀ (J : Json) args,
             (ToolManager.execute_tool m' name args).1
             = (ToolOps.execute tool args).1).
Proof.
  split.
  - intros Hname. unfold ToolManager.register_tool. by rewrite Hname.
  - intros name old Hdef Hname Hold.
    unfold ToolManager.register_tool. rewrite Hdef; simpl. rewrite Hname; simpl.
    eexists; split; [reflexivity|]; simpl.
    split; [apply dict_get_set_eq|].
    split; [apply dict_set_keys; by rewrite Hold|].
    intros J args. unfold ToolManager.execute_tool; simpl.
    by rewrite dict_get_set_eq.
Qed.

Lemma register_tool_overwrites_witness :
  ToolManager.register_tool Samples.app_registry (Custom Samples.nameless_tool)
  = Raise (Exn ValueError "Tool must have a 'name' in its definition")
  ∧ ∃ m',
      ToolManager.register_tool Samples.app_registry
        (Custom Samples.impostor_tool) = Ok m'
      ∧ ToolManager.dict_get (ToolManager.tools m') CourseSearchTool.tool_name
        = Some (Custom Samples.impostor_tool)
      ∧ (ToolManager.tools m').*1 = (ToolManager.tools Samples.app_registry).*1
      ∧ ∀ (J : Json) args,
          (ToolManager.execute_tool m' CourseSearchTool.tool_name args).1
          = (ToolOps.execute (Custom Samples.impostor_tool) args).1.
Proof.
  split.
  - apply (register_tool_overwrites Samples.app_registry
             (Custom Samples.nameless_tool)). reflexivity.
  - apply (proj2 (register_tool_overwrites Samples.app_registry
                    (Custom Samples.impostor_tool))
             CourseSearchTool.tool_name (Search Samples.search_tool));
      reflexivity.
Defined.

(** ** Outline Lookup tool *)

Section Outline.
Import CourseOutlineTool.

Implicit Types (x y : LessonDict) (l : list LessonDict).

Local Instance key_le_trans : Transitive key_le.
Proof. unfold key_le. intros x y z. lia. Qed.

Lemma insert_by_key_Permutation x l : insert_by_key x l ≡ₚ x :: l.
Proof.
  induction l as [|y l IH]; simpl; [done|].
  case_decide; [done|]. rewrite IH. apply Permutation_swap.
Qed.

Lemma sorted_Permutation l : sorted l ≡ₚ l.
Proof.
  induction l as [|x l IH]; simpl; [done|].
  by rewrite insert_by_key_Permutation, IH.
Qed.

Lemma insert_by_key_HdRel z x l :
  key_le z x → HdRel key_le z l → HdRel key_le z (insert_by_key x l).
Proof.
  intros Hzx Hzl. destruct l as [|y l]; simpl; [by constructor|].
  case_decide; constructor; [done|]. by inversion Hzl.
Qed.

Lemma insert_by_key_Sorted x l :
  Sorted key_le l → Sorted key_le (insert_by_key x l).
Proof.
  induction 1 as [|y l Hl IH Hy]; simpl.
  - by repeat constructor.
  - case_decide as Hxy.
    + constructor; [by constructor|by constructor].
    + constructor; [done|].
      apply insert_by_key_HdRel; [|done]. unfold key_le. lia.
Qed.

Lemma sorted_Sorted l : Sorted key_le (sorted l).
Proof.
  induction l as [|x l IH]; simpl; [constructor|].
  by apply insert_by_key_Sorted.
Qed.

Lemma sorted_StronglySorted l : StronglySorted key_le (sorted l).
Proof. apply Sorted_StronglySorted; [apply _|apply sorted_Sorted]. Qed.

Lemma sorted_length l : length (sorted l) = length l.
Proof. by rewrite sorted_Permutation. Qed.

(** With pairwise distinct keys the order is strict. *)
Lemma StronglySorted_key_lt l :
  StronglySorted key_le l → NoDup (sort_key <$> l) → StronglySorted key_lt l.
Proof.
  induction 1 as [|x l Hl IH Hx]; [constructor|].
  rewrite fmap_cons, NoDup_cons. intros [Hnotin Hnodup].
  constructor; [by apply IH|].
  rewrite Forall_forall in Hx |- *. intros y Hy.
  assert (sort_key x ≠ sort_key y).
  { intros Heq. apply Hnotin. rewrite Heq. by apply list_elem_of_fmap_2. }
  specialize (Hx y Hy). unfold key_le, key_lt in *. lia.
Qed.

(** Stable sorting forgets the input order once the keys are distinct. *)
Lemma sorted_order_independent l1 l2 :
  l1 ≡ₚ l2 → NoDup (sort_key <$> l1) → sorted l1 = sorted l2.
Proof.
  intros Hperm Hnodup.
  apply (StronglySorted_unique_strong key_le).
  - intros x1 x2 Hx1 Hx2 H12 H21.
    rewrite sorted_Permutation in Hx1.
    rewrite sorted_Permutation, <-Hperm in Hx2.
    assert (sort_key x1 = sort_key x2) as Hkey
      by (unfold key_le in *; lia).
    apply list_elem_of_lookup in Hx1 as [i Hi], Hx2 as [j Hj].
    assert (i = j) as ->.
    { apply (NoDup_lookup (sort_key <$> l1) i j (sort_key x1));
        [done|by rewrite list_lookup_fmap, Hi
             |by rewrite list_lookup_fmap, Hj, Hkey]. }
    congruence.
  - apply sorted_StronglySorted.
  - apply sorted_StronglySorted.
  - by rewrite !sorted_Permutation.
Qed.

Lemma execute_last_sources {J : Json} (self : t) (course_name : string) :
  last_sources (execute self course_name).2 = last_sources self.
Proof.
  unfold execute.
  destruct (execute_body self course_name) as [text|[[] msg]]; done.
Qed.

End Outline.

Example format_outline_sorting :
  CourseOutlineTool.lesson_line <$> CourseOutlineTool.sorted Samples.unsorted_lessons
  = [ "  0. First Lesson"; "  1. Second Lesson";
      "  2. Third Lesson - https://example.com/course/lesson-2" ].
Proof. vm_compute. reflexivity. Qed.

(** Outside the data model: two lessons that carry the same lesson number
    are rendered in the order in which they are stored, so for such a list a
    permutation changes the output. *)
Lemma format_outline_equal_numbers_keep_input_order :
  [Samples.part_a; Samples.part_b] ≡ₚ [Samples.part_b; Samples.part_a]
  ∧ CourseOutlineTool.lesson_line
      <$> CourseOutlineTool.sorted [Samples.part_a; Samples.part_b]
    = ["  1. Part A"; "  1. Part B"]
  ∧ CourseOutlineTool.lesson_line
      <$> CourseOutlineTool.sorted [Samples.part_b; Samples.part_a]
    = ["  1. Part B"; "  1. Part A"]
  ∧ CourseOutlineTool._format_outline "Test Course" "No link available"
      "Unknown" [Samples.part_a; Samples.part_b]
    ≠ CourseOutlineTool._format_outline "Test Course" "No link available"
        "Unknown" [Samples.part_b; Samples.part_a].
Proof.
  split; [apply Permutation_swap|].
  split; [by vm_compute|]. split; [by vm_compute|].
  vm_compute. discriminate.
Qed.

(** C6: for every lesson list that meets the data model's invariant of
    pairwise distinct lesson numbers (as sort keys: the lesson number, 0
    when it is absent), rendering any permutation of the list produces the
    same output: the header lines followed by one line per lesson, the
    lessons in strictly ascending order of lesson number, each line of the
    form "  <number>. <title>" with " - <link>" appended when the lesson
    has a non-empty link. *)
Theorem format_outline_order_independent
    (title course_link instructor : string) (l1 l2 : list LessonDict) :
  l1 ≡ₚ l2 →
  NoDup (CourseOutlineTool.sort_key <$> l1) →
  CourseOutlineTool._format_outline title course_link instructor l1
  = CourseOutlineTool._format_outline title course_link instructor l2
  ∧ CourseOutlineTool._format_outline title course_link instructor l1
    = join newline
        (CourseOutlineTool.header_lines title course_link instructor l1
         ++ (CourseOutlineTool.lesson_line <$> CourseOutlineTool.sorted l1))
  ∧ CourseOutlineTool.sorted l1 ≡ₚ l1
  ∧ StronglySorted CourseOutlineTool.key_lt (CourseOutlineTool.sorted l1)
  ∧ ∀ x n t,
      x ∈ l1 → ld_lesson_number x = Some n → ld_lesson_title x = Some t →
      CourseOutlineTool.lesson_line x
      = ("  " +:+ pretty n +:+ ". " +:+ t) +:+
        match ld_lesson_link x with
        | Some (String c link) => " - " +:+ String c link
        | _ => ""
        end.
Proof.
  intros Hperm Hnodup. repeat split.
  - unfold CourseOutlineTool._format_outline, CourseOutlineTool.header_lines.
    by rewrite (sorted_order_independent l1 l2), (Permutation_length Hperm).
  - apply sorted_Permutation.
  - apply StronglySorted_key_lt.
    + apply sorted_StronglySorted.
    + by rewrite sorted_Permutation.
  - intros x n t _ Hn Ht. unfold CourseOutlineTool.lesson_line.
    rewrite Hn, Ht; simpl.
    destruct (ld_lesson_link x) as [[|c link]|]; simpl;
      by rewrite ?string_app_nil_r.
Qed.

Lemma format_outline_order_independent_witness :
  Samples.unsorted_lessons ≡ₚ Samples.ordered_lessons
  ∧ NoDup (CourseOutlineTool.sort_key <$> Samples.unsorted_lessons)
  ∧ CourseOutlineTool._format_outline "Test Course"
      "https://example.com/course" "Test Instructor" Samples.unsorted_lessons
    = CourseOutlineTool._format_outline "Test Course"
        "https://example.com/course" "Test Instructor" Samples.ordered_lessons.
Proof.
  assert (Samples.unsorted_lessons ≡ₚ Samples.ordered_lessons) as Hperm.
  { exact (Permutation_cons_append
             [Samples.first_lesson; Samples.second_lesson]
             Samples.third_lesson). }
  assert (NoDup (CourseOutlineTool.sort_key <$> Samples.unsorted_lessons))
    as Hnodup.
  { apply (bool_decide_unpack _). by vm_compute. }
  split; [done|]. split; [done|].
  apply (format_outline_order_independent "Test Course"
           "https://example.com/course" "Test Instructor"
           Samples.unsorted_lessons Samples.ordered_lessons Hperm Hnodup).
Defined.

(** C9: the Outline Lookup tool never emits a citation record: after any
    sequence of [execute] calls on a freshly constructed tool, whatever the
    arguments and whatever the backend and the parser answer or raise, its
    [last_sources] is the empty list. *)
Theorem outline_tool_never_cites {J : Json} (vector_store : VectorStore)
    (calls : list (VectorStore * string)) :
  CourseOutlineTool.last_sources
    (CourseOutlineTool.execute_all
       (CourseOutlineTool.__init__ vector_store) calls) = [].
Proof.
  change [] with
    (CourseOutlineTool.last_sources (CourseOutlineTool.__init__ vector_store)).
  generalize (CourseOutlineTool.__init__ vector_store) as self.
  induction calls as [|call rest IH]; intros self; simpl; [done|].
  by rewrite IH, execute_last_sources.
Qed.

(** ** Content Search tool: the three outcomes of [execute] *)

Section SearchExecute.
Import CourseSearchTool.
Context {J : Json}.

Implicit Types (self : t) (results : SearchResults).

(** The message for an empty result set; [last_sources] is not touched on
    this path either.  The two filters are reported under a truthiness
    test. *)
Lemma execute_no_results self query course_name lesson_number results :
  search (store self) query course_name lesson_number = Ok results →
  truthy_opt_str (error results) = false →
  is_empty results = true →
  execute self query course_name lesson_number
  = ("No relevant content found" +:+
     ((if truthy_opt_str course_name
       then "" +:+ " in course '" +:+ default "" course_name +:+ "'"
       else "") +:+
      (if truthy_opt_int lesson_number
       then " in lesson " +:+ str_opt_int lesson_number
       else "")) +:+ ".",
     self).
Proof.
  intros Hsearch Herr Hempty. unfold execute, execute_body.
  rewrite Hsearch; simpl. rewrite Herr, Hempty.
  destruct (truthy_opt_str course_name), (truthy_opt_int lesson_number);
    simpl; by rewrite ?string_app_nil_r, ?string_app_assoc, ?string_app_nil.
Qed.

(** A result set with documents and without error is handed to
    [_format_results]. *)
Lemma execute_formats self query course_name lesson_number results r :
  search (store self) query course_name lesson_number = Ok results →
  truthy_opt_str (error results) = false →
  is_empty results = false →
  _format_results self results = Ok r →
  execute self query course_name lesson_number = r.
Proof.
  intros Hsearch Herr Hempty Hfmt. unfold execute, execute_body.
  rewrite Hsearch; simpl. by rewrite Herr, Hempty, Hfmt.
Qed.

End SearchExecute.

(** C3, at the input where the code departs from it: a search restricted to
    lesson 0 that finds nothing reports no lesson filter, while the same
    search restricted to lesson 1 reports it. *)
Theorem no_results_message_drops_lesson_zero :
  CourseSearchTool.execute (J := Samples.sample_json) Samples.search_tool
    "Unknown topic" None (Some 0)
  = ("No relevant content found.", Samples.search_tool)
  ∧ CourseSearchTool.execute (J := Samples.sample_json) Samples.search_tool
      "Unknown topic" (Some "RAG") (Some 0)
    = ("No relevant content found in course 'RAG'.", Samples.search_tool)
  ∧ CourseSearchTool.execute (J := Samples.sample_json) Samples.search_tool
      "Unknown topic" None (Some 1)
    = ("No relevant content found in lesson 1.", Samples.search_tool).
Proof. repeat split; by vm_compute. Qed.




(** ** Content Search tool: the deduplication key *)

Section SourceKey.
Import CourseSearchTool.

Implicit Types (s t : string) (c : ascii) (p : ascii → bool).

Lemma all_chars_app p s1 s2 :
  all_chars p (s1 +:+ s2) = all_chars p s1 && all_chars p s2.
Proof.
  induction s1 as [|c s1 IH]; [done|].
  rewrite string_app_cons; simpl. by rewrite IH, andb_assoc.
Qed.

Lemma all_chars_impl p q s :
  (∀ c, p c = true → q c = true) →
  all_chars p s = true → all_chars q s = true.
Proof.
  intros Hpq. induction s as [|c s IH]; simpl; [done|].
  rewrite !andb_true_iff. intros [Hc Hs]. auto.
Qed.

Lemma decimal_not_underscore c :
  decimal_char c = true → not_underscore c = true.
Proof.
  destruct c as [[] [] [] [] [] [] [] []]; by vm_compute.
Qed.

Lemma pretty_N_char_decimal (x : N) : decimal_char (pretty_N_char x) = true.
Proof. unfold pretty_N_char. by repeat case_match. Qed.

Lemma pretty_N_go_decimal (x : N) s :
  all_chars decimal_char s = true →
  all_chars decimal_char (pretty_N_go x s) = true.
Proof.
  revert s. induction (N.lt_wf_0 x) as [x _ IH]; intros s Hs.
  destruct (decide (x = 0)%N) as [->|Hx].
  - by rewrite pretty_N_go_0.
  - rewrite pretty_N_go_step by lia. apply IH.
    + apply N.div_lt; lia.
    + simpl. by rewrite pretty_N_char_decimal.
Qed.

Lemma pretty_N_decimal (x : N) : all_chars decimal_char (pretty x) = true.
Proof.
  unfold pretty, pretty_N. case_decide; [done|].
  by apply pretty_N_go_decimal.
Qed.

(** The decimal numeral of an integer: digits, with a leading minus sign
    for a negative one. *)
Lemma pretty_Z_decimal (n : Z) : all_chars decimal_char (pretty n) = true.
Proof.
  destruct n as [|q|q]; unfold pretty, pretty_Z; [done|..].
  - apply pretty_N_decimal.
  - rewrite all_chars_app; simpl. apply pretty_N_decimal.
Qed.

Lemma str_opt_int_no_underscore (o : option Z) :
  all_chars not_underscore (str_opt_int o) = true.
Proof.
  destruct o as [n|]; simpl; [|done].
  eapply all_chars_impl; [apply decimal_not_underscore|].
  apply pretty_Z_decimal.
Qed.

Lemma str_opt_int_inj : Inj (=) (=) str_opt_int.
Proof.
  intros [n1|] [n2|]; simpl; intros Heq; [| | |done].
  - by apply (inj pretty) in Heq as ->.
  - pose proof (pretty_Z_decimal n1) as Hd. by rewrite Heq in Hd.
  - pose proof (pretty_Z_decimal n2) as Hd. by rewrite <-Heq in Hd.
Qed.

(** A string without underscore is determined by what follows the last
    underscore. *)
Lemma split_at_last_underscore t1 t2 s1 s2 :
  all_chars not_underscore s1 = true →
  all_chars not_underscore s2 = true →
  t1 +:+ "_" +:+ s1 = t2 +:+ "_" +:+ s2 →
  t1 = t2 ∧ s1 = s2.
Proof.
  intros Hs1 Hs2. revert t2.
  induction t1 as [|c1 t1 IH]; intros [|c2 t2];
    rewrite ?string_app_cons, ?string_app_nil; intros Heq.
  - by simplify_eq.
  - injection Heq as <- ->.
    rewrite all_chars_app in Hs1; simpl in Hs1.
    by rewrite andb_false_r in Hs1.
  - injection Heq as -> <-.
    rewrite all_chars_app in Hs2; simpl in Hs2.
    by rewrite andb_false_r in Hs2.
  - injection Heq as -> Heq. by destruct (IH _ Heq) as [-> ->].
Qed.

(** Two chunks get the same deduplication key exactly when they have the
    same course title and the same lesson number. *)
Lemma source_key_inj title1 lesson1 title2 lesson2 :
  source_key title1 lesson1 = source_key title2 lesson2 →
  (title1, lesson1) = (title2, lesson2).
Proof.
  unfold source_key. intros Heq.
  apply split_at_last_underscore in Heq as [-> Heq];
    [|apply str_opt_int_no_underscore..].
  by apply str_opt_int_inj in Heq as ->.
Qed.

End SourceKey.

(** ** Content Search tool: the formatting loop *)

Section FormatResults.
Import CourseSearchTool.
Context {J : Json}.

Implicit Types (self : t) (st : loop_state) (dm : string * ChunkMeta)
  (p q : string * option Z).

Lemma seen_matches_key st p :
  seen_matches st →
  source_key p.1 p.2 ∈ seen_sources st ↔ p ∈ source_pair <$> sources st.
Proof.
  intros Hinv. rewrite (Hinv _). split.
  - intros (q & Hq & Hkey). apply source_key_inj in Hkey.
    by rewrite (surjective_pairing p), Hkey, <-surjective_pairing.
  - intros Hp. by exists p.
Qed.

(** An iteration on a pair that has a record already only adds a block. *)
Lemma format_step_seen self st dm :
  seen_matches st →
  pair_of dm.2 ∈ source_pair <$> sources st →
  format_step self st dm
  = Ok {| formatted := formatted st ++ [block_of dm];
          sources := sources st;
          seen_sources := seen_sources st |}.
Proof.
  intros Hinv Hin. apply (seen_matches_key _ _ Hinv) in Hin.
  unfold format_step. rewrite decide_False by (intros Hn; by apply Hn).
  reflexivity.
Qed.

(** An iteration on a new pair adds a block and one record, numbered after
    the records built so far. *)
Lemma format_step_fresh self st dm :
  seen_matches st →
  pair_of dm.2 ∉ source_pair <$> sources st →
  links_resolve self dm.2 →
  ∃ s st',
    format_step self st dm = Ok st'
    ∧ formatted st' = formatted st ++ [block_of dm]
    ∧ sources st' = sources st ++ [s]
    ∧ seen_matches st'
    ∧ source_pair s = pair_of dm.2
    ∧ citation_number s = Z.of_nat (length (sources st)) + 1
    ∧ looked_up self s.
Proof.
  intros Hinv Hnotin [[course_link Hcourse] Hlesson].
  rewrite <-(seen_matches_key _ _ Hinv) in Hnotin.
  unfold format_step. rewrite decide_True by done.
  rewrite Hcourse; simpl.
  assert (∀ s st',
    source_pair s = pair_of dm.2 →
    sources st' = sources st ++ [s] →
    seen_sources st'
    = {[source_key (meta_title dm.2) (md_lesson_number dm.2)]}
      ∪ seen_sources st →
    seen_matches st') as Hinv'.
  { intros s st' Hs Hsources Hseen k. rewrite Hseen, Hsources, fmap_app.
    rewrite elem_of_union, elem_of_singleton, (Hinv k). split.
    - intros [->|(q & Hq & ->)].
      + exists (pair_of dm.2). split; [|done].
        rewrite elem_of_app, <-Hs. right. simpl. by left.
      + exists q. split; [|done]. rewrite elem_of_app. by left.
    - intros (q & Hq & ->). rewrite elem_of_app in Hq.
      destruct Hq as [Hq|Hq]; [right; by exists q|left].
      simpl in Hq. apply list_elem_of_singleton in Hq as ->. by rewrite Hs. }
  assert (∀ s, lesson_number s = md_lesson_number dm.2 →
               course_title s = meta_title dm.2 →
               source_pair s = pair_of dm.2) as Hpair.
  { intros s Hl Ht. unfold source_pair, pair_of. by rewrite Hl, Ht. }
  destruct (md_lesson_number dm.2) as [n|] eqn:Hn.
  - destruct (Hlesson n eq_refl) as [lesson_link Hlink].
    rewrite Hlink; simpl.
    eexists _, _; split; [reflexivity|]; simpl.
    split; [unfold block_of; by rewrite Hn|].
    split; [done|].
    split; [eapply Hinv'; [|reflexivity..]; by apply Hpair|].
    split; [by apply Hpair|].
    split; [done|].
    unfold looked_up; simpl. by rewrite Hcourse, Hlink.
  - eexists _, _; split; [reflexivity|]; simpl.
    split; [unfold block_of; by rewrite Hn|].
    split; [done|].
    split; [eapply Hinv'; [|reflexivity..]; by apply Hpair|].
    split; [by apply Hpair|].
    split; [done|].
    unfold looked_up; simpl. by rewrite Hcourse.
Qed.

End FormatResults.

Section FirstSeen.
Import CourseSearchTool.

Implicit Types (p q : string * option Z) (l : list (string * option Z)).

Lemma elem_of_distinct_first_seen l p : p ∈ distinct_first_seen l ↔ p ∈ l.
Proof.
  induction l as [|q l IH]; simpl; [done|].
  rewrite !elem_of_cons, list_elem_of_filter, IH.
  destruct (decide (p = q)); tauto.
Qed.

Lemma distinct_first_seen_NoDup l : NoDup (distinct_first_seen l).
Proof.
  induction l as [|q l IH]; simpl; [constructor|].
  apply NoDup_cons. split.
  - rewrite list_elem_of_filter. intros [Hne _]. by apply Hne.
  - by apply NoDup_filter.
Qed.

(** Dropping the pairs of [seen ++ [p]] is dropping [p] and then the
    pairs of [seen]. *)
Lemma filter_not_seen_snoc (seen : list (string * option Z)) p l :
  filter (λ q, q ∉ seen ++ [p]) l
  = filter (λ q, q ∉ seen) (filter (λ q, q ≠ p) l).
Proof.
  rewrite list_filter_filter. apply list_filter_iff. intros q.
  rewrite elem_of_app, list_elem_of_singleton. tauto.
Qed.

Lemma filter_not_seen_member (seen : list (string * option Z)) p l :
  p ∈ seen →
  filter (λ q, q ∉ seen) (filter (λ q, q ≠ p) l) = filter (λ q, q ∉ seen) l.
Proof.
  intros Hp. rewrite list_filter_filter. apply list_filter_iff. intros q.
  split; [tauto|]. intros Hq. split; [done|]. by intros ->.
Qed.

Lemma filter_not_seen_nil l : filter (λ q, q ∉ @nil (string * option Z)) l = l.
Proof.
  induction l as [|q l IH]; [done|].
  rewrite filter_cons_True by apply not_elem_of_nil. by rewrite IH.
Qed.

End FirstSeen.

Section FormatLoop.
Import CourseSearchTool.
Context {J : Json}.

Implicit Types (self : t) (st : loop_state)
  (dms : list (string * ChunkMeta)).

(** The loop, started in any state whose [seen_sources] matches its
    [sources]: it appends one block per chunk and one record per pair that
    has no record yet, in first-seen order, numbered consecutively. *)
Lemma format_loop_spec self dms st :
  seen_matches st →
  Forall (links_resolve self) dms.*2 →
  ∃ st' new,
    format_loop self st dms = Ok st'
    ∧ formatted st' = formatted st ++ (block_of <$> dms)
    ∧ sources st' = sources st ++ new
    ∧ source_pair <$> new
      = filter (λ p, p ∉ source_pair <$> sources st)
          (distinct_first_seen (pair_of <$> dms.*2))
    ∧ Forall (looked_up self) new
    ∧ citation_number <$> new
      = seqZ (Z.of_nat (length (sources st)) + 1) (Z.of_nat (length new)).
Proof.
  revert st. induction dms as [|dm dms IH]; intros st Hinv Hlinks.
  { exists st, []. simpl. by rewrite !app_nil_r. }
  rewrite fmap_cons in Hlinks. apply Forall_cons in Hlinks as [Hdm Hlinks].
  rewrite !fmap_cons. cbn [distinct_first_seen].
  destruct (decide (pair_of dm.2 ∈ source_pair <$> sources st)) as [Hin|Hnotin].
  - destruct (IH {| formatted := formatted st ++ [block_of dm];
                    sources := sources st;
                    seen_sources := seen_sources st |} Hinv Hlinks)
      as (st' & new & Hloop & Hfmt & Hsrc & Hpairs & Hlooked & Hnum).
    exists st', new.
    split; [simpl; by rewrite (format_step_seen _ _ _ Hinv Hin)|].
    split; [rewrite Hfmt; simpl; by rewrite <-app_assoc|].
    split; [done|]. split; [|done].
    rewrite filter_cons_False by (intros Hn; by apply Hn).
    by rewrite filter_not_seen_member.
  - destruct (format_step_fresh self st dm Hinv Hnotin Hdm)
      as (s & st1 & Hstep & Hfmt1 & Hsrc1 & Hinv1 & Hpair & Hcite & Hlook).
    destruct (IH st1 Hinv1 Hlinks)
      as (st' & new & Hloop & Hfmt & Hsrc & Hpairs & Hlooked & Hnum).
    exists st', (s :: new).
    split; [simpl; by rewrite Hstep|].
    split; [by rewrite Hfmt, Hfmt1, <-app_assoc|].
    split; [by rewrite Hsrc, Hsrc1, <-app_assoc|].
    split.
    { rewrite filter_cons_True by done.
      rewrite fmap_cons, Hpair, Hpairs, Hsrc1, fmap_app, fmap_cons, fmap_nil.
      by rewrite Hpair, filter_not_seen_snoc. }
    split; [by constructor|].
    rewrite fmap_cons, Hcite, Hnum, Hsrc1, length_app.
    rewrite (seqZ_cons _ (Z.of_nat (length (s :: new)))) by (simpl; lia).
    f_equal. f_equal; simpl; lia.
Qed.

End FormatLoop.

Section FormatResultsSpec.
Import CourseSearchTool.
Context {J : Json}.

Implicit Types (self : t) (results : SearchResults).

Lemma NoDup_fmap_eq {A B} (f : A → B) (l : list A) x y :
  NoDup (f <$> l) → x ∈ l → y ∈ l → f x = f y → x = y.
Proof.
  intros Hnodup [i Hi]%list_elem_of_lookup [j Hj]%list_elem_of_lookup Hxy.
  assert (i = j) as ->; [|congruence].
  apply (NoDup_lookup (f <$> l) i j (f x)); [done|..].
  - by rewrite list_lookup_fmap, Hi.
  - by rewrite list_lookup_fmap, Hj, Hxy.
Qed.

(** What one call of [_format_results] returns and stores, for a result
    set whose sequences are aligned and a backend that answers the link
    lookups. *)
Lemma format_results_spec self results :
  length (documents results) = length (metadata results) →
  Forall (links_resolve self) (metadata results) →
  ∃ cited,
    _format_results self results
    = Ok (join (newline +:+ newline)
            (block_of <$> zip (documents results) (metadata results)),
          set_last_sources self cited)
    ∧ source_pair <$> cited
      = distinct_first_seen (pair_of <$> metadata results)
    ∧ Forall (looked_up self) cited
    ∧ citation_number <$> cited = seqZ 1 (Z.of_nat (length cited)).
Proof.
  intros Hlen Hlinks.
  assert ((zip (documents results) (metadata results)).*2 = metadata results)
    as Hzip by (apply snd_zip; lia).
  destruct (format_loop_spec self
              (zip (documents results) (metadata results))
              {| formatted := []; sources := []; seen_sources := ∅ |})
    as (st' & new & Hloop & Hfmt & Hsrc & Hpairs & Hlooked & Hnum).
  { intros k; simpl. split; [by intros ?%not_elem_of_empty|].
    intros (p & Hp & _). by apply not_elem_of_nil in Hp. }
  { by rewrite Hzip. }
  simpl in Hfmt, Hsrc, Hnum. rewrite Hzip in Hpairs.
  exists new. unfold _format_results. rewrite Hloop; simpl.
  rewrite Hfmt, Hsrc. split; [done|].
  split; [by rewrite Hpairs, filter_not_seen_nil|]. done.
Qed.

End FormatResultsSpec.

Example rag_results_formatted :
  ∃ text searched,
    CourseSearchTool._format_results (J := Samples.sample_json)
      Samples.search_tool Samples.rag_results = Ok (text, searched)
    ∧ CourseSearchTool.last_sources searched
      = [ {| course_title := Samples.rag_title;
             course_link := Some Samples.rag_link;
             lesson_number := Some 0;
             lesson_title := Some "What is RAG?";
             lesson_link := Some Samples.lesson0_link;
             citation_number := 1 |};
          {| course_title := Samples.rag_title;
             course_link := Some Samples.rag_link;
             lesson_number := Some 1;
             lesson_title := Some "Vector Embeddings";
             lesson_link := Some Samples.lesson0_link;
             citation_number := 2 |} ].
Proof. eexists _, _. split; by vm_compute. Qed.

(** C5: for every result set that [_format_results] formats (documents and
    metadata aligned, the backend answering the link lookups), exactly one
    citation record is built per distinct (course title, lesson number)
    pair, in first-seen order however many documents share a pair, and the
    citation numbers of the records are 1, 2, ..., k. *)
Theorem format_results_citations {J : Json} (self : CourseSearchTool.t)
    (results : SearchResults) :
  length (documents results) = length (metadata results) →
  Forall (CourseSearchTool.links_resolve self) (metadata results) →
  ∃ text self',
    CourseSearchTool._format_results self results = Ok (text, self')
    ∧ CourseSearchTool.source_pair <$> CourseSearchTool.last_sources self'
      = CourseSearchTool.distinct_first_seen
          (CourseSearchTool.pair_of <$> metadata results)
    ∧ NoDup (CourseSearchTool.source_pair <$> CourseSearchTool.last_sources self')
    ∧ (∀ p, p ∈ CourseSearchTool.source_pair <$> CourseSearchTool.last_sources self'
            ↔ p ∈ CourseSearchTool.pair_of <$> metadata results)
    ∧ citation_number <$> CourseSearchTool.last_sources self'
      = seqZ 1 (Z.of_nat (length (CourseSearchTool.last_sources self'))).
Proof.
  intros Hlen Hlinks.
  destruct (format_results_spec self results Hlen Hlinks)
    as (cited & Hfmt & Hpairs & _ & Hnum).
  eexists _, _. split; [exact Hfmt|]. simpl.
  split; [done|].
  split; [rewrite Hpairs; apply distinct_first_seen_NoDup|].
  split; [|done].
  intros p. rewrite Hpairs. apply elem_of_distinct_first_seen.
Qed.

Lemma format_results_citations_witness :
  length (documents Samples.rag_results) = length (metadata Samples.rag_results)
  ∧ Forall (CourseSearchTool.links_resolve Samples.search_tool)
      (metadata Samples.rag_results)
  ∧ ∃ text self',
      CourseSearchTool._format_results (J := Samples.sample_json)
        Samples.search_tool Samples.rag_results = Ok (text, self')
      ∧ CourseSearchTool.source_pair <$> CourseSearchTool.last_sources self'
        = CourseSearchTool.distinct_first_seen
            (CourseSearchTool.pair_of <$> metadata Samples.rag_results)
      ∧ NoDup (CourseSearchTool.source_pair
                 <$> CourseSearchTool.last_sources self')
      ∧ (∀ p, p ∈ CourseSearchTool.source_pair
                    <$> CourseSearchTool.last_sources self'
              ↔ p ∈ CourseSearchTool.pair_of <$> metadata Samples.rag_results)
      ∧ citation_number <$> CourseSearchTool.last_sources self'
        = seqZ 1 (Z.of_nat (length (CourseSearchTool.last_sources self'))).
Proof.
  assert (Forall (CourseSearchTool.links_resolve Samples.search_tool)
            (metadata Samples.rag_results)) as Hlinks.
  { repeat constructor; try (by eexists); intros n _; by eexists. }
  split; [reflexivity|]. split; [exact Hlinks|].
  apply (format_results_citations (J := Samples.sample_json)
           Samples.search_tool Samples.rag_results eq_refl Hlinks).
Defined.

(** C10: in the formatting of search results lesson number 0 counts as
    present: a retrieved document whose metadata has lesson number 0 gets
    the block header "[<course title> - Lesson 0]", and the pair
    (course title, 0) has exactly one citation record of its own, whose
    lesson link and lesson title are the ones looked up for lesson 0. *)
Theorem format_results_lesson_zero {J : Json} (self : CourseSearchTool.t)
    (results : SearchResults) (i : nat) (doc : string) (meta : ChunkMeta) :
  length (documents results) = length (metadata results) →
  Forall (CourseSearchTool.links_resolve self) (metadata results) →
  documents results !! i = Some doc →
  metadata results !! i = Some meta →
  md_lesson_number meta = Some 0 →
  ∃ blocks self',
    CourseSearchTool._format_results self results
    = Ok (join (newline +:+ newline) blocks, self')
    ∧ blocks !! i
      = Some ("[" +:+ CourseSearchTool.meta_title meta +:+ " - Lesson 0]" +:+
              newline +:+ doc)
    ∧ ∃ s,
        s ∈ CourseSearchTool.last_sources self'
        ∧ course_title s = CourseSearchTool.meta_title meta
        ∧ lesson_number s = Some 0
        ∧ get_course_link (CourseSearchTool.store self)
            (CourseSearchTool.meta_title meta) = Ok (course_link s)
        ∧ get_lesson_link (CourseSearchTool.store self)
            (CourseSearchTool.meta_title meta) 0 = Ok (lesson_link s)
        ∧ lesson_title s
          = CourseSearchTool._get_lesson_title self
              (CourseSearchTool.meta_title meta) 0
        ∧ ∀ s',
            s' ∈ CourseSearchTool.last_sources self' →
            course_title s' = CourseSearchTool.meta_title meta →
            lesson_number s' = Some 0 →
            s' = s.
Proof.
  intros Hlen Hlinks Hdoc Hmeta Hzero.
  destruct (format_results_spec self results Hlen Hlinks)
    as (cited & Hfmt & Hpairs & Hlooked & _).
  eexists _, _. split; [exact Hfmt|]. simpl. split.
  { rewrite list_lookup_fmap.
    assert (zip (documents results) (metadata results) !! i = Some (doc, meta))
      as -> by by apply lookup_zip_Some.
    simpl. f_equal. unfold CourseSearchTool.block_of, CourseSearchTool.header_of.
    simpl. rewrite Hzero. by rewrite !string_app_assoc. }
  assert (CourseSearchTool.pair_of meta
            ∈ CourseSearchTool.source_pair <$> cited) as Hin.
  { rewrite Hpairs, elem_of_distinct_first_seen.
    apply list_elem_of_fmap_2. by eapply list_elem_of_lookup_2. }
  apply list_elem_of_fmap in Hin as (s & Hs & Hin).
  unfold CourseSearchTool.pair_of, CourseSearchTool.source_pair in Hs.
  rewrite Hzero in Hs. injection Hs as Htitle Hlesson.
  rewrite Forall_forall in Hlooked.
  destruct (Hlooked s Hin) as [Hcourse Hless].
  rewrite <-Hlesson in Hless. destruct Hless as [Hlink Hltitle].
  exists s. rewrite <-Htitle in Hcourse, Hlink, Hltitle.
  repeat split; try done.
  intros s' Hin' Htitle' Hlesson'.
  apply (NoDup_fmap_eq CourseSearchTool.source_pair cited); [|done..|].
  - rewrite Hpairs. apply distinct_first_seen_NoDup.
  - unfold CourseSearchTool.source_pair. congruence.
Qed.

Lemma format_results_lesson_zero_witness :
  ∃ blocks self',
    CourseSearchTool._format_results (J := Samples.sample_json)
      Samples.search_tool Samples.rag_results
    = Ok (join (newline +:+ newline) blocks, self')
    ∧ blocks !! 1%nat
      = Some ("[" +:+ Samples.rag_title +:+ " - Lesson 0]" +:+ newline +:+
              "It combines retrieval with generation.")
    ∧ ∃ s,
        s ∈ CourseSearchTool.last_sources self'
        ∧ course_title s = Samples.rag_title
        ∧ lesson_number s = Some 0
        ∧ get_course_link Samples.sample_store Samples.rag_title
          = Ok (course_link s)
        ∧ get_lesson_link Samples.sample_store Samples.rag_title 0
          = Ok (lesson_link s)
        ∧ lesson_title s
          = CourseSearchTool._get_lesson_title (J := Samples.sample_json)
              Samples.search_tool Samples.rag_title 0
        ∧ ∀ s',
            s' ∈ CourseSearchTool.last_sources self' →
            course_title s' = Samples.rag_title →
            lesson_number s' = Some 0 →
            s' = s.
Proof.
  assert (Forall (CourseSearchTool.links_resolve Samples.search_tool)
            (metadata Samples.rag_results)) as Hlinks.
  { repeat constructor; try (by eexists); intros n _; by eexists. }
  apply (format_results_lesson_zero (J := Samples.sample_json)
           Samples.search_tool Samples.rag_results 1
           "It combines retrieval with generation." (Samples.rag_meta 0)
           eq_refl Hlinks eq_refl eq_refl eq_refl).
Defined.

(** * Further properties of the registry *)

Section RegistryFacts.
Import ToolManager.

Implicit Types (d : list (string * Tool)) (tool : Tool) (k : string).

Lemma dict_get_None_keys d k : dict_get d k = None ↔ k ∉ d.*1.
Proof.
  induction d as [|kv d IH].
  - split; [intros _; apply not_elem_of_nil|done].
  - rewrite fmap_cons, not_elem_of_cons. cbn [dict_get].
    destruct (decide (kv.1 = k)) as [Heq|Hne].
    + split; [done|]. intros [Hne _]. by destruct Hne.
    + rewrite IH. split; [done|]. by intros [_ ?].
Qed.

Lemma dict_get_elem_of d k tool : dict_get d k = Some tool → (k, tool) ∈ d.
Proof.
  induction d as [|kv d IH]; simpl; [done|].
  destruct (decide (kv.1 = k)) as [Heq|Hne].
  - intros [= <-]. rewrite <-Heq, <-surjective_pairing. by left.
  - intros Hget. right. by apply IH.
Qed.

(** Assigning to a key that is absent appends the entry. *)
Lemma dict_set_fresh d k tool :
  dict_get d k = None → dict_set d k tool = d ++ [(k, tool)].
Proof.
  induction d as [|kv d IH]; simpl; [done|].
  destruct (decide (kv.1 = k)) as [Heq|Hne]; [done|].
  intros Hget. by rewrite IH.
Qed.

(** Assigning the value that is already there changes nothing. *)
Lemma dict_set_same d k tool :
  dict_get d k = Some tool → dict_set d k tool = d.
Proof.
  induction d as [|kv d IH]; simpl; [done|].
  destruct (decide (kv.1 = k)) as [Heq|Hne].
  - intros [= <-]. by rewrite <-Heq, <-surjective_pairing.
  - intros Hget. by rewrite IH.
Qed.

Lemma dict_set_Forall (P : string * Tool → Prop) d k tool :
  Forall P d → P (k, tool) → Forall P (dict_set d k tool).
Proof.
  intros Hd Hk. induction Hd as [|kv d Hkv Hd IH]; cbn [dict_set].
  - by constructor.
  - destruct (decide (kv.1 = k)); by constructor.
Qed.

Lemma execute_definition_name {J : Json} tool args :
  RegistryOps.name_stable tool →
  ToolOps.definition_name (ToolOps.execute tool args).2
  = ToolOps.definition_name tool.
Proof. destruct tool as [s|o|c], args; simpl; try done; intros Hc; apply Hc. Qed.

Lemma execute_name_stable {J : Json} tool args :
  RegistryOps.name_stable tool →
  RegistryOps.name_stable (ToolOps.execute tool args).2.
Proof. by destruct tool as [s|o|c], args. Qed.

Lemma reset_name_stable tool :
  RegistryOps.name_stable tool → RegistryOps.name_stable (ToolOps.reset tool).
Proof. by destruct tool. Qed.

Lemma reset_definition_name tool :
  ToolOps.definition_name (ToolOps.reset tool) = ToolOps.definition_name tool.
Proof. by destruct tool. Qed.

Lemma drain_keys d : (drain d).2.*1 = d.*1.
Proof.
  induction d as [|kv d IH]; [done|]. cbn [drain].
  destruct (holds kv.2); [done|].
  cbn [snd]. by rewrite !fmap_cons, IH.
Qed.

Lemma drain_Forall (P : string * Tool → Prop) d :
  (∀ kv, P kv → P (kv.1, ToolOps.reset kv.2)) →
  Forall P d → Forall P (drain d).2.
Proof.
  intros Hreset Hd. induction Hd as [|kv d Hkv Hd IH]; cbn [drain].
  - constructor.
  - destruct (holds kv.2); cbn [snd]; constructor; auto.
Qed.

End RegistryFacts.

(** X1: [get_last_sources] on a registry in which no tool holds citation
    records returns the empty list and leaves the registry as it is;
    otherwise it returns the records of the first tool, in registration
    order, that holds any, resets that tool and leaves every other entry
    untouched. *)
Theorem get_last_sources_first_holder (m : ToolManager.t) :
  (ToolManager.all_drained m → ToolManager.get_last_sources m = ([], m))
  ∧ (∀ pre kv post,
       ToolManager.tools m = pre ++ kv :: post →
       Forall (λ kv, ToolManager.holds kv.2 = false) pre →
       ToolManager.holds kv.2 = true →
       ToolManager.get_last_sources m
       = (default [] (ToolOps.last_sources kv.2),
          {| ToolManager.tools := pre ++ (kv.1, ToolOps.reset kv.2) :: post |})).
Proof.
  destruct m as [d]. unfold ToolManager.get_last_sources; simpl. split.
  - intros Hall. by rewrite drain_no_holder.
  - intros pre kv post Hd Hpre Hkv.
    by rewrite (drain_first_holder d pre kv post).
Qed.

Lemma get_last_sources_first_holder_witness :
  ToolManager.get_last_sources Samples.two_holders
  = ([Samples.citation "Notes" 1],
     {| ToolManager.tools :=
          [ ("search_notes", ToolOps.reset (Custom Samples.notes_tool));
            ("search_forum", Custom Samples.forum_tool) ] |}).
Proof.
  apply (proj2 (get_last_sources_first_holder Samples.two_holders)
           [] ("search_notes", Custom Samples.notes_tool)
           [("search_forum", Custom Samples.forum_tool)]);
    [reflexivity|constructor|reflexivity].
Defined.

(** X2: after [reset_sources] no registered tool holds a citation record,
    so a following [get_last_sources] returns the empty list; the registered
    names keep their order, every tool keeps the name it declares, and a
    tool without a [last_sources] attribute is not given one. *)
Theorem reset_sources_clears_all (m : ToolManager.t) :
  ToolManager.all_drained (ToolManager.reset_sources m)
  ∧ ToolManager.get_last_sources (ToolManager.reset_sources m)
    = ([], ToolManager.reset_sources m)
  ∧ (ToolManager.tools (ToolManager.reset_sources m)).*1
    = (ToolManager.tools m).*1
  ∧ ToolManager.get_tool_definitions (ToolManager.reset_sources m)
    = ToolManager.get_tool_definitions m
  ∧ ∀ i k tool,
      ToolManager.tools m !! i = Some (k, tool) →
      ToolOps.last_sources tool = None →
      ToolManager.tools (ToolManager.reset_sources m) !! i = Some (k, tool).
Proof.
  assert (ToolManager.all_drained (ToolManager.reset_sources m)) as Hall.
  { unfold ToolManager.all_drained, ToolManager.reset_sources; simpl.
    apply Forall_fmap, Forall_true. intros kv; simpl.
    destruct (ToolOps.last_sources kv.2) eqn:Hls; simpl.
    - apply holds_reset.
    - unfold ToolManager.holds. by rewrite Hls. }
  split; [done|].
  split.
  { unfold ToolManager.get_last_sources. rewrite drain_no_holder by done.
    by destruct (ToolManager.reset_sources m). }
  destruct m as [d]. unfold ToolManager.reset_sources,
    ToolManager.get_tool_definitions; simpl.
  split; [|split].
  - rewrite <-list_fmap_compose. apply list_fmap_ext. intros _ kv _; simpl.
    by destruct (ToolOps.last_sources kv.2).
  - change (map ?f ?l) with (f <$> l).
    rewrite <-list_fmap_compose. apply list_fmap_ext. intros _ kv _; simpl.
    destruct (ToolOps.last_sources kv.2); simpl; [|done].
    apply reset_definition_name.
  - intros i k tool Hi Hnone. rewrite list_lookup_fmap, Hi; simpl.
    by rewrite Hnone.
Qed.

(** X3: registering a tool whose non-empty declared name is not registered
    yet succeeds and appends it: the tool definitions are listed in
    registration order with the new one last, the new name dispatches to the
    new tool, and every other name dispatches as before. *)
Theorem register_tool_appends (m : ToolManager.t) (tool : Tool)
    (name : string) :
  ToolOps.definition_name tool = Some name →
  truthy_str name = true →
  ToolManager.dict_get (ToolManager.tools m) name = None →
  ∃ m',
    ToolManager.register_tool m tool = Ok m'
    ∧ ToolManager.tools m' = ToolManager.tools m ++ [(name, tool)]
    ∧ ToolManager.get_tool_definitions m'
      = ToolManager.get_tool_definitions m ++ [Some name]
    ∧ ToolManager.dict_get (ToolManager.tools m') name = Some tool
    ∧ ∀ k, k ≠ name →
           ToolManager.dict_get (ToolManager.tools m') k
           = ToolManager.dict_get (ToolManager.tools m) k.
Proof.
  intros Hdef Hname Hfresh. unfold ToolManager.register_tool.
  rewrite Hdef; simpl. rewrite Hname; simpl.
  eexists; split; [reflexivity|]; simpl.
  split; [by apply dict_set_fresh|].
  split.
  { unfold ToolManager.get_tool_definitions; simpl.
    rewrite dict_set_fresh by done. rewrite map_app; simpl. by rewrite Hdef. }
  split; [apply dict_get_set_eq|].
  intros k Hk. by apply dict_get_set_ne.
Qed.

Lemma register_tool_appends_witness :
  ∃ m',
    ToolManager.register_tool
      {| ToolManager.tools :=
           [(CourseSearchTool.tool_name, Search Samples.search_tool)] |}
      (Outline Samples.outline_tool) = Ok m'
    ∧ ToolManager.tools m'
      = [(CourseSearchTool.tool_name, Search Samples.search_tool)]
        ++ [(CourseOutlineTool.tool_name, Outline Samples.outline_tool)]
    ∧ ToolManager.get_tool_definitions m'
      = [Some CourseSearchTool.tool_name] ++ [Some CourseOutlineTool.tool_name]
    ∧ ToolManager.dict_get (ToolManager.tools m') CourseOutlineTool.tool_name
      = Some (Outline Samples.outline_tool)
    ∧ ∀ k, k ≠ CourseOutlineTool.tool_name →
           ToolManager.dict_get (ToolManager.tools m') k
           = ToolManager.dict_get
               [(CourseSearchTool.tool_name, Search Samples.search_tool)] k.
Proof.
  apply (register_tool_appends
           {| ToolManager.tools :=
                [(CourseSearchTool.tool_name, Search Samples.search_tool)] |}
           (Outline Samples.outline_tool) CourseOutlineTool.tool_name);
    reflexivity.
Defined.

Section RegistryInvariant.
Import ToolManager RegistryOps.
Context {J : Json}.

Implicit Types (m : ToolManager.t) (d : list (string * Tool)).

Lemma dict_set_NoDup_keys d k tool : NoDup d.*1 → NoDup (dict_set d k tool).*1.
Proof.
  intros Hnodup. destruct (dict_get d k) as [old|] eqn:Hget.
  - rewrite dict_set_keys; [done|by rewrite Hget].
  - rewrite dict_set_fresh, fmap_app by done.
    apply NoDup_app. split; [done|]. split; [|apply NoDup_singleton].
    intros k' Hk' ->%list_elem_of_singleton.
    by apply dict_get_None_keys in Hget.
Qed.

Lemma step_stable m o :
  match o with Register tool => name_stable tool | _ => True end →
  NoDup (tools m).*1 → Forall stable_entry (tools m) →
  NoDup (tools (step m o)).*1 ∧ Forall stable_entry (tools (step m o)).
Proof.
  intros Ho Hnodup Hall. destruct o as [tool|name args| |].
  - simpl. unfold register_tool.
    destruct (ToolOps.definition_name tool) as [name|] eqn:Hdef; simpl; [|done].
    destruct (truthy_str name) eqn:Hname; simpl; [|done].
    split; [by apply dict_set_NoDup_keys|by apply dict_set_Forall].
  - simpl. unfold execute_tool.
    destruct (dict_get (tools m) name) as [tool|] eqn:Hget; simpl; [|done].
    pose proof (dict_get_elem_of _ _ _ Hget) as Hin.
    rewrite Forall_forall in Hall.
    destruct (Hall _ Hin) as [[Hdef Hname] Hstable]. simpl in *.
    split; [by apply dict_set_NoDup_keys|].
    apply dict_set_Forall; [by apply Forall_forall|].
    split; simpl; [|by apply execute_name_stable].
    by rewrite execute_definition_name.
  - split; simpl; [by rewrite drain_keys|].
    apply drain_Forall; [|done]. intros kv [[Hdef Hname] Hstable].
    split; simpl; [|by apply reset_name_stable].
    by rewrite reset_definition_name.
  - split; simpl.
    + rewrite <-list_fmap_compose.
      rewrite (list_fmap_ext _ fst (tools m)); [done|].
      intros _ kv _; simpl. by destruct (ToolOps.last_sources kv.2).
    + apply Forall_fmap. eapply Forall_impl; [exact Hall|].
      intros kv [[Hdef Hname] Hstable]; simpl.
      destruct (ToolOps.last_sources kv.2); simpl; [|done].
      split; simpl; [|by apply reset_name_stable].
      by rewrite reset_definition_name.
Qed.

Lemma run_stable m ops :
  registers_name_stable ops →
  NoDup (tools m).*1 → Forall stable_entry (tools m) →
  NoDup (tools (run m ops)).*1 ∧ Forall stable_entry (tools (run m ops)).
Proof.
  intros Hops. revert m.
  induction Hops as [|o ops Ho Hops IH]; intros m Hnodup Hall; simpl; [done|].
  destruct (step_stable m o Ho Hnodup Hall) as [Hnodup' Hall'].
  by apply IH.
Qed.

End RegistryInvariant.

(** X4: whatever sequence of registrations, dispatches, drains and resets a
    fresh registry goes through, as long as every registered tool is one
    whose [execute] never changes the name its definition declares (as the
    two retrieval tools are), every tool stays registered under the
    non-empty name its own definition declares and no name is registered
    twice; the listed tool definitions therefore carry exactly the
    registered names, in order. *)
Theorem registry_stays_well_keyed {J : Json} (ops : list RegistryOps.op) :
  RegistryOps.registers_name_stable ops →
  RegistryOps.well_keyed (RegistryOps.run ToolManager.__init__ ops)
  ∧ ToolManager.get_tool_definitions (RegistryOps.run ToolManager.__init__ ops)
    = Some <$> (ToolManager.tools (RegistryOps.run ToolManager.__init__ ops)).*1.
Proof.
  intros Hops.
  destruct (run_stable ToolManager.__init__ ops Hops) as [Hnodup Hall];
    [constructor..|].
  assert (Forall (λ kv, ToolOps.definition_name kv.2 = Some kv.1
                        ∧ truthy_str kv.1 = true)
            (ToolManager.tools (RegistryOps.run ToolManager.__init__ ops)))
    as Hkeyed.
  { eapply Forall_impl; [exact Hall|]. by intros kv [Hkv _]. }
  split; [by split|].
  unfold ToolManager.get_tool_definitions.
  change (map ?f ?l) with (f <$> l). rewrite <-list_fmap_compose.
  apply Forall_fmap_ext_1. eapply Forall_impl; [exact Hkeyed|].
  by intros kv [Hdef _].
Qed.

Lemma registry_stays_well_keyed_witness :
  RegistryOps.registers_name_stable MoreSamples.app_session
  ∧ RegistryOps.well_keyed
      (RegistryOps.run (J := Samples.sample_json) ToolManager.__init__
         MoreSamples.app_session)
  ∧ ToolManager.get_tool_definitions
      (RegistryOps.run (J := Samples.sample_json) ToolManager.__init__
         MoreSamples.app_session)
    = Some <$>
        (ToolManager.tools
           (RegistryOps.run (J := Samples.sample_json) ToolManager.__init__
              MoreSamples.app_session)).*1.
Proof.
  assert (RegistryOps.registers_name_stable MoreSamples.app_session) as Hops.
  { repeat constructor. }
  split; [exact Hops|].
  apply (registry_stays_well_keyed (J := Samples.sample_json)
           MoreSamples.app_session Hops).
Defined.

(** A tool that renames itself while it runs stays under the name it was
    registered with, and is listed with the name it declares now. *)
Example renaming_tool_keeps_its_key :
  let m :=
    RegistryOps.run (J := Samples.sample_json) ToolManager.__init__
      [ RegistryOps.Register (Custom MoreSamples.renaming_tool);
        RegistryOps.Dispatch "alpha" Samples.rag_query ] in
  (ToolManager.tools m).*1 = ["alpha"]
  ∧ ToolManager.get_tool_definitions m = [Some "beta"].
Proof. split; reflexivity. Qed.

(** X5: a dispatch to a registered name replaces that entry by the tool as
    its [execute] leaves it and touches nothing else: the registered names
    and their order are the same, and every other name still maps to the
    same tool. *)
Theorem execute_tool_frame {J : Json} (m : ToolManager.t) (name : string)
    (args : kwargs) (tool : Tool) :
  ToolManager.dict_get (ToolManager.tools m) name = Some tool →
  ToolManager.dict_get
    (ToolManager.tools (ToolManager.execute_tool m name args).2) name
  = Some (ToolOps.execute tool args).2
  ∧ (ToolManager.tools (ToolManager.execute_tool m name args).2).*1
    = (ToolManager.tools m).*1
  ∧ ∀ k, k ≠ name →
         ToolManager.dict_get
           (ToolManager.tools (ToolManager.execute_tool m name args).2) k
         = ToolManager.dict_get (ToolManager.tools m) k.
Proof.
  intros Hget. unfold ToolManager.execute_tool. rewrite Hget; simpl.
  split; [apply dict_get_set_eq|].
  split; [apply dict_set_keys; by rewrite Hget|].
  intros k Hk. by apply dict_get_set_ne.
Qed.

Lemma execute_tool_frame_witness :
  ToolManager.dict_get
    (ToolManager.tools
       (ToolManager.execute_tool (J := Samples.sample_json)
          Samples.app_registry CourseSearchTool.tool_name Samples.rag_query).2)
    CourseSearchTool.tool_name
  = Some (ToolOps.execute (J := Samples.sample_json)
            (Search Samples.search_tool) Samples.rag_query).2
  ∧ (ToolManager.tools
       (ToolManager.execute_tool (J := Samples.sample_json)
          Samples.app_registry CourseSearchTool.tool_name Samples.rag_query).2).*1
    = (ToolManager.tools Samples.app_registry).*1
  ∧ ∀ k, k ≠ CourseSearchTool.tool_name →
         ToolManager.dict_get
           (ToolManager.tools
              (ToolManager.execute_tool (J := Samples.sample_json)
                 Samples.app_registry CourseSearchTool.tool_name
                 Samples.rag_query).2) k
         = ToolManager.dict_get (ToolManager.tools Samples.app_registry) k.
Proof.
  apply (execute_tool_frame (J := Samples.sample_json) Samples.app_registry
           CourseSearchTool.tool_name Samples.rag_query
           (Search Samples.search_tool)).
  reflexivity.
Defined.

Section DispatchThenDrain.
Import ToolManager.

Implicit Types (d : list (string * Tool)) (tool : Tool) (k : string).

Lemma no_holder_citations d :
  Forall (λ kv, holds kv.2 = false) d →
  concat (map (λ kv, default [] (ToolOps.last_sources kv.2)) d) = [].
Proof.
  induction 1 as [|kv d Hkv _ IH]; simpl; [done|].
  by rewrite not_holds_no_sources, IH.
Qed.

Lemma dict_set_one_holder d k old tool :
  Forall (λ kv, holds kv.2 = false) d →
  dict_get d k = Some old →
  (length (filter (λ kv, holds kv.2 = true) (dict_set d k tool)) ≤ 1)%nat
  ∧ concat (map (λ kv, default [] (ToolOps.last_sources kv.2))
              (dict_set d k tool))
    = default [] (ToolOps.last_sources tool).
Proof.
  induction 1 as [|kv d Hkv Hd IH]; cbn [dict_get dict_set]; [done|].
  destruct (decide (kv.1 = k)) as [Heq|Hne]; intros Hget.
  - split.
    + rewrite filter_cons. apply no_holders_Forall in Hd.
      case_decide; simpl; lia.
    + simpl. by rewrite no_holder_citations, app_nil_r.
  - destruct (IH Hget) as [Hle Hcat]. split.
    + rewrite filter_cons_False by (by rewrite Hkv). done.
    + simpl. by rewrite not_holds_no_sources, Hcat.
Qed.

End DispatchThenDrain.

(** X6: on a registry in which no tool holds citation records, a dispatch
    to a registered name followed by one [get_last_sources] hands over
    exactly the citation records which that dispatch left in the dispatched
    tool, and afterwards no registered tool holds a record. *)
Theorem dispatch_then_drain {J : Json} (m : ToolManager.t) (name : string)
    (args : kwargs) (tool : Tool) :
  ToolManager.all_drained m →
  ToolManager.dict_get (ToolManager.tools m) name = Some tool →
  (ToolManager.get_last_sources (ToolManager.execute_tool m name args).2).1
  = default [] (ToolOps.last_sources (ToolOps.execute tool args).2)
  ∧ ToolManager.all_drained
      (ToolManager.get_last_sources
         (ToolManager.execute_tool m name args).2).2.
Proof.
  intros Hall Hget.
  unfold ToolManager.execute_tool, ToolManager.get_last_sources,
    ToolManager.all_drained. rewrite Hget; simpl.
  destruct (dict_set_one_holder (ToolManager.tools m) name tool
              (ToolOps.execute tool args).2 Hall Hget) as [Hle Hcat].
  destruct (drain_at_most_one _ Hle) as [Hdrain Hdrained].
  by rewrite Hdrain, Hcat.
Qed.

Lemma dispatch_then_drain_witness :
  (ToolManager.get_last_sources
     (ToolManager.execute_tool (J := Samples.sample_json) Samples.app_registry
        CourseSearchTool.tool_name Samples.rag_query).2).1
  = default []
      (ToolOps.last_sources
         (ToolOps.execute (J := Samples.sample_json)
            (Search Samples.search_tool) Samples.rag_query).2)
  ∧ ToolManager.all_drained
      (ToolManager.get_last_sources
         (ToolManager.execute_tool (J := Samples.sample_json)
            Samples.app_registry CourseSearchTool.tool_name
            Samples.rag_query).2).2.
Proof.
  apply (dispatch_then_drain (J := Samples.sample_json) Samples.app_registry
           CourseSearchTool.tool_name Samples.rag_query
           (Search Samples.search_tool)).
  - repeat constructor.
  - reflexivity.
Defined.

(** X7: keyword arguments that do not fit the signature of the dispatched
    tool's [execute] (the Content Search tool called without [query], the
    Outline Lookup tool called with [query]) make the dispatch raise
    [TypeError]: the failure is not turned into a text, and the registry is
    left as it was. *)
Theorem execute_tool_signature_mismatch {J : Json} (m : ToolManager.t)
    (name : string) (tool : Tool) (args : kwargs) :
  ToolManager.dict_get (ToolManager.tools m) name = Some tool →
  match tool, args with
  | Search _, OutlineArgs _ | Outline _, SearchArgs _ _ _ => True
  | _, _ => False
  end →
  ∃ msg,
    ToolManager.execute_tool m name args = (Raise (Exn TypeError msg), m).
Proof.
  intros Hget Hmis. unfold ToolManager.execute_tool. rewrite Hget.
  destruct m as [d]; simpl in *.
  destruct tool as [s|o|c], args as [query course_name lesson_number|course_name];
    try done; simpl; rewrite (dict_set_same d name _ Hget); by eexists.
Qed.

Lemma execute_tool_signature_mismatch_witness :
  ∃ msg,
    ToolManager.execute_tool (J := Samples.sample_json) Samples.app_registry
      CourseOutlineTool.tool_name Samples.rag_query
    = (Raise (Exn TypeError msg), Samples.app_registry).
Proof.
  apply (execute_tool_signature_mismatch (J := Samples.sample_json)
           Samples.app_registry CourseOutlineTool.tool_name
           (Outline Samples.outline_tool) Samples.rag_query);
    [reflexivity|exact I].
Defined.

(** * Further properties of the Content Search tool *)

Section FormatOutcome.
Import CourseSearchTool.
Context {J : Json}.

Implicit Types (self : t) (st : loop_state) (dm : string * ChunkMeta)
  (dms : list (string * ChunkMeta)) (results : SearchResults).

(** The lookups depend on the (course title, lesson number) pair only. *)
Lemma links_resolve_pair self (meta1 meta2 : ChunkMeta) :
  pair_of meta1 = pair_of meta2 →
  links_resolve self meta1 → links_resolve self meta2.
Proof.
  unfold pair_of, links_resolve. intros [= Htitle Hlesson].
  by rewrite Htitle, Hlesson.
Qed.

(** An iteration that completes on a new pair has had its lookups
    answered. *)
Lemma format_step_Ok_resolves self st dm st' :
  seen_matches st →
  pair_of dm.2 ∉ source_pair <$> sources st →
  format_step self st dm = Ok st' →
  links_resolve self dm.2.
Proof.
  intros Hinv Hnotin. rewrite <-(seen_matches_key _ _ Hinv) in Hnotin.
  unfold format_step, links_resolve. rewrite decide_True by done.
  destruct (get_course_link (store self) (meta_title dm.2))
    as [course_link|e]; simpl; [|done].
  destruct (md_lesson_number dm.2) as [n|]; simpl.
  - destruct (get_lesson_link (store self) (meta_title dm.2) n)
      as [lesson_link|e] eqn:Hlink; simpl; [|done].
    intros _. split; [by eexists|]. intros n' [= <-]. by eexists.
  - intros _. split; [by eexists|]. done.
Qed.

Lemma format_loop_Ok_resolves self dms st st' :
  seen_matches st →
  (∀ meta, pair_of meta ∈ source_pair <$> sources st →
           links_resolve self meta) →
  format_loop self st dms = Ok st' →
  Forall (links_resolve self) dms.*2.
Proof.
  revert st. induction dms as [|dm dms IH]; intros st Hinv Hold;
    [constructor|].
  cbn [format_loop]. rewrite fmap_cons.
  destruct (format_step self st dm) as [st1|e] eqn:Hstep; simpl; [|done].
  intros Hloop.
  destruct (decide (pair_of dm.2 ∈ source_pair <$> sources st)) as [Hin|Hnotin].
  - rewrite (format_step_seen _ _ _ Hinv Hin) in Hstep.
    injection Hstep as <-.
    constructor; [by apply Hold|].
    eapply IH; [| |exact Hloop]; [exact Hinv|exact Hold].
  - pose proof (format_step_Ok_resolves _ _ _ _ Hinv Hnotin Hstep) as Hdm.
    destruct (format_step_fresh self st dm Hinv Hnotin Hdm)
      as (s & st2 & Hstep2 & _ & Hsrc & Hinv2 & Hpair & _).
    rewrite Hstep in Hstep2. injection Hstep2 as <-.
    constructor; [done|]. eapply IH; [exact Hinv2| |exact Hloop].
    intros meta. rewrite Hsrc, fmap_app, elem_of_app.
    intros [Hmeta|Hmeta]; [by apply Hold|].
    apply list_elem_of_singleton in Hmeta.
    apply (links_resolve_pair self dm.2); [|done]. by rewrite Hmeta, Hpair.
Qed.

Lemma seen_matches_initial :
  seen_matches {| formatted := []; sources := []; seen_sources := ∅ |}.
Proof.
  intros k; simpl. split; [by intros ?%not_elem_of_empty|].
  intros (p & Hp & _). by apply not_elem_of_nil in Hp.
Qed.

(** [_format_results] on the chunks that [zip] pairs up, whatever the
    lengths of the two sequences. *)
Lemma format_results_zip_spec self results :
  Forall (links_resolve self)
    (zip (documents results) (metadata results)).*2 →
  ∃ cited,
    _format_results self results
    = Ok (join (newline +:+ newline)
            (block_of <$> zip (documents results) (metadata results)),
          set_last_sources self cited)
    ∧ source_pair <$> cited
      = distinct_first_seen
          (pair_of <$> (zip (documents results) (metadata results)).*2)
    ∧ Forall (looked_up self) cited
    ∧ citation_number <$> cited = seqZ 1 (Z.of_nat (length cited)).
Proof.
  intros Hlinks.
  destruct (format_loop_spec self
              (zip (documents results) (metadata results))
              {| formatted := []; sources := []; seen_sources := ∅ |}
              seen_matches_initial Hlinks)
    as (st' & new & Hloop & Hfmt & Hsrc & Hpairs & Hlooked & Hnum).
  simpl in Hfmt, Hsrc, Hnum.
  exists new. unfold _format_results. rewrite Hloop; simpl.
  rewrite Hfmt, Hsrc. split; [done|].
  split; [by rewrite Hpairs, filter_not_seen_nil|]. done.
Qed.

Lemma format_results_Ok_resolves self results r :
  _format_results self results = Ok r →
  Forall (links_resolve self)
    (zip (documents results) (metadata results)).*2.
Proof.
  unfold _format_results.
  destruct (format_loop self _ _) as [st'|e] eqn:Hloop; simpl; [|done].
  intros _.
  eapply format_loop_Ok_resolves; [exact seen_matches_initial| |exact Hloop].
  intros meta Hmeta. by apply not_elem_of_nil in Hmeta.
Qed.

(** The outcome does not depend on what the tool holds. *)
Lemma format_loop_held self held st dms :
  format_loop (set_last_sources self held) st dms = format_loop self st dms.
Proof.
  revert st. induction dms as [|dm dms IH]; intros st; [done|].
  cbn [format_loop].
  assert (format_step (set_last_sources self held) st dm
          = format_step self st dm) as -> by done.
  destruct (format_step self st dm); simpl; [apply IH|done].
Qed.

Lemma distinct_first_seen_length (l : list (string * option Z)) :
  (length (distinct_first_seen l) ≤ length l)%nat.
Proof.
  induction l as [|p l IH]; simpl; [done|].
  pose proof (length_filter (λ q, q ≠ p) (distinct_first_seen l)). lia.
Qed.

End FormatOutcome.

Section JoinFacts.

Implicit Types (s sep x : string) (parts : list string).

Lemma contains_refl s : contains s s.
Proof. exists "", "". by rewrite string_app_nil_r. Qed.

Lemma contains_app_l s1 s2 x : contains s1 x → contains (s1 +:+ s2) x.
Proof.
  intros (pre & post & ->). exists pre, (post +:+ s2).
  by rewrite !string_app_assoc.
Qed.

Lemma contains_app_r s1 s2 x : contains s2 x → contains (s1 +:+ s2) x.
Proof.
  intros (pre & post & ->). exists (s1 +:+ pre), post.
  by rewrite !string_app_assoc.
Qed.

(** Every part occurs in the joined string. *)
Lemma join_contains sep parts x : x ∈ parts → contains (join sep parts) x.
Proof.
  unfold join. induction parts as [|h t IH]; [by intros ?%not_elem_of_nil|].
  rewrite elem_of_cons. destruct t as [|h' t]; cbn [String.concat].
  - intros [->|Hx%not_elem_of_nil]; [apply contains_refl|done].
  - intros [->|Hx].
    + apply contains_app_l, contains_refl.
    + by apply contains_app_r, contains_app_r, IH.
Qed.

End JoinFacts.

(** ** Failures inside the two retrieval tools *)

Section ToolFailures.
Import CourseSearchTool.
Context {J : Json}.

Implicit Types (self : t) (st : loop_state) (dm : string * ChunkMeta).

(** An iteration raises what one of its two link lookups raises. *)
Lemma format_step_Raise self st dm e :
  format_step self st dm = Raise e →
  get_course_link (store self) (meta_title dm.2) = Raise e
  ∨ ∃ n, md_lesson_number dm.2 = Some n
         ∧ get_lesson_link (store self) (meta_title dm.2) n = Raise e.
Proof.
  unfold format_step. case_decide; [|done].
  destruct (get_course_link (store self) (meta_title dm.2))
    as [course_link|e']; simpl; [|intros [= ->]; by left].
  destruct (md_lesson_number dm.2) as [n|]; simpl; [|done].
  destruct (get_lesson_link (store self) (meta_title dm.2) n)
    as [lesson_link|e'] eqn:Hlink; simpl; [done|].
  intros [= ->]. right. by exists n.
Qed.

Lemma format_loop_Raise self dms st e :
  format_loop self st dms = Raise e →
  ∃ dm, dm ∈ dms
        ∧ (get_course_link (store self) (meta_title dm.2) = Raise e
           ∨ ∃ n, md_lesson_number dm.2 = Some n
                  ∧ get_lesson_link (store self) (meta_title dm.2) n = Raise e).
Proof.
  revert st. induction dms as [|dm dms IH]; intros st; [done|].
  cbn [format_loop].
  destruct (format_step self st dm) as [st1|e'] eqn:Hstep; simpl.
  - intros (dm' & Hin & Hraise)%IH. exists dm'. split; [by right|done].
  - intros [= ->]. exists dm. split; [by left|].
    by apply (format_step_Raise self st).
Qed.

Lemma format_results_Raise self results e :
  _format_results self results = Raise e →
  ∃ meta, meta ∈ (zip (documents results) (metadata results)).*2
          ∧ (get_course_link (store self) (meta_title meta) = Raise e
             ∨ ∃ n, md_lesson_number meta = Some n
                    ∧ get_lesson_link (store self) (meta_title meta) n
                      = Raise e).
Proof.
  unfold _format_results.
  destruct (format_loop self _ _) as [st'|e'] eqn:Hloop; simpl; [done|].
  intros [= ->]. apply format_loop_Raise in Hloop as (dm & Hin & Hraise).
  exists dm.2. split; [by apply list_elem_of_fmap_2|done].
Qed.

End ToolFailures.

(** C7: a dispatch to a name that is not registered raises an error whose
    message contains the name; a dispatch to a registered name gives back
    what the tool's [execute] gives, unchanged; and [execute] of the Content
    Search tool and of the Outline Lookup tool always returns a text, also
    when something fails inside.  For the Content Search tool: when the
    search raises, or a link lookup needed for a retrieved chunk raises, the
    text is "Search tool error: " followed by the message of that exception;
    a failing catalog lookup or parser while the lesson title is fetched is
    absorbed (the title is [None]).  For the Outline Lookup tool: when the
    resolver, the catalog lookup or the parser raises, the text is
    "Error parsing lessons data for course '<input>': " followed by the
    message for a [JSONDecodeError], and "Error retrieving course outline: "
    followed by the message for any other exception. *)
Theorem execute_tool_dispatch {J : Json} (m : ToolManager.t) (name : string)
    (args : kwargs) :
  (ToolManager.dict_get (ToolManager.tools m) name = None →
   ∃ msg, ToolManager.execute_tool m name args = (Raise (Exn ValueError msg), m)
          ∧ contains msg name)
  ∧ (∀ tool,
       ToolManager.dict_get (ToolManager.tools m) name = Some tool →
       (ToolManager.execute_tool m name args).1 = (ToolOps.execute tool args).1)
  ∧ (∀ s query course_name lesson_number,
       ∃ text,
         (ToolOps.execute (Search s)
            (SearchArgs query course_name lesson_number)).1 = Ok text
         ∧ (∀ e,
              search (CourseSearchTool.store s) query course_name lesson_number
              = Raise e →
              text = "Search tool error: " +:+ exn_msg e)
         ∧ (∀ results,
              search (CourseSearchTool.store s) query course_name lesson_number
              = Ok results →
              truthy_opt_str (error results) = false →
              is_empty results = false →
              ¬ Forall (CourseSearchTool.links_resolve s)
                  (zip (documents results) (metadata results)).*2 →
              ∃ e meta,
                meta ∈ (zip (documents results) (metadata results)).*2
                ∧ (get_course_link (CourseSearchTool.store s)
                     (CourseSearchTool.meta_title meta) = Raise e
                   ∨ ∃ n,
                       md_lesson_number meta = Some n
                       ∧ get_lesson_link (CourseSearchTool.store s)
                           (CourseSearchTool.meta_title meta) n = Raise e)
                ∧ text = "Search tool error: " +:+ exn_msg e))
  ∧ (∀ s title n e,
       course_catalog_get (CourseSearchTool.store s) title = Raise e
       ∨ (∃ metadata others lessons_json,
            course_catalog_get (CourseSearchTool.store s) title
            = Ok (Some {| metadatas := Some (metadata :: others) |})
            ∧ cm_lessons_json metadata = Some lessons_json
            ∧ json_loads lessons_json = Raise e) →
       CourseSearchTool._get_lesson_title s title n = None)
  ∧ (∀ o course_name,
       ∃ text,
         (ToolOps.execute (Outline o) (OutlineArgs course_name)).1 = Ok text
         ∧ ∀ e,
             _resolve_course_name (CourseOutlineTool.store o) course_name
             = Raise e
             ∨ (∃ title,
                  _resolve_course_name (CourseOutlineTool.store o) course_name
                  = Ok (Some title)
                  ∧ title ≠ ""
                  ∧ (course_catalog_get (CourseOutlineTool.store o) title
                     = Raise e
                     ∨ ∃ metadata others lessons_json,
                         course_catalog_get (CourseOutlineTool.store o) title
                         = Ok (Some {| metadatas := Some (metadata :: others) |})
                         ∧ cm_lessons_json metadata = Some lessons_json
                         ∧ lessons_json ≠ ""
                         ∧ json_loads lessons_json = Raise e)) →
             text
             = match exn_cls e with
               | JSONDecodeError =>
                   "Error parsing lessons data for course '" +:+
                   course_name +:+ "': " +:+ exn_msg e
               | _ => "Error retrieving course outline: " +:+ exn_msg e
               end).
Proof.
  split; [|split; [|split; [|split]]].
  - intros Hnone. unfold ToolManager.execute_tool. rewrite Hnone.
    eexists; split; [reflexivity|]. apply contains_middle.
  - intros tool Hsome. unfold ToolManager.execute_tool. by rewrite Hsome.
  - intros s query course_name lesson_number. simpl.
    eexists; split; [reflexivity|]. split.
    + intros e He.
      unfold CourseSearchTool.execute, CourseSearchTool.execute_body.
      by rewrite He.
    + intros results Hsearch Herr Hempty Hfail.
      unfold CourseSearchTool.execute, CourseSearchTool.execute_body.
      rewrite Hsearch; simpl. rewrite Herr, Hempty.
      destruct (CourseSearchTool._format_results s results) as [r|e] eqn:Hfmt.
      { destruct Hfail. by eapply format_results_Ok_resolves. }
      apply format_results_Raise in Hfmt as (meta & Hin & Hraise).
      by exists e, meta.
  - intros s title n e Hfail.
    unfold CourseSearchTool._get_lesson_title,
      CourseSearchTool._get_lesson_title_body.
    destruct Hfail as [->|(metadata & others & js & -> & Hjson & Hparse)];
      simpl; [done|].
    rewrite Hjson. destruct (truthy_str js); [|done]. by rewrite Hparse.
  - intros o course_name. simpl.
    eexists; split; [reflexivity|].
    intros e Hfail.
    assert (CourseOutlineTool.execute_body o course_name = Raise e) as Hbody.
    { unfold CourseOutlineTool.execute_body.
      destruct Hfail as [->|(title & -> & Htitle & Hfail)]; simpl; [done|].
      destruct title; [done|]; simpl.
      destruct Hfail as [->|(metadata & others & js & -> & Hjson & Hjs & Hparse)];
        simpl; [done|].
      rewrite Hjson. destruct js; [done|]; simpl. by rewrite Hparse. }
    unfold CourseOutlineTool.execute. rewrite Hbody.
    by destruct e as [[] msg].
Qed.

Lemma execute_tool_dispatch_witness :
  (∃ msg,
     ToolManager.execute_tool (J := Samples.sample_json) Samples.app_registry
       "nonexistent_tool" Samples.rag_query
     = (Raise (Exn ValueError msg), Samples.app_registry)
     ∧ contains msg "nonexistent_tool")
  ∧ (ToolManager.execute_tool (J := Samples.sample_json) Samples.app_registry
       CourseSearchTool.tool_name (SearchArgs "crash" None None)).1
    = Ok "Search tool error: Database connection error".
Proof.
  split.
  - apply (execute_tool_dispatch (J := Samples.sample_json)
             Samples.app_registry "nonexistent_tool" Samples.rag_query).
    reflexivity.
  - rewrite (proj1 (proj2 (execute_tool_dispatch (J := Samples.sample_json)
               Samples.app_registry CourseSearchTool.tool_name
               (SearchArgs "crash" None None)))
               (Search Samples.search_tool) eq_refl).
    reflexivity.
Defined.

(** X8: for a result set without documents and without (non-empty) error
    string, [execute] answers "No relevant content found", followed by
    " in course '<name>'" when a non-empty course name was given, followed by
    " in lesson <n>" when a lesson number other than 0 was given, followed
    by a full stop; the tool is left as it was. *)
Theorem execute_no_results_message {J : Json} (self : CourseSearchTool.t)
    (query : string) (course_name : option string) (lesson_number : option Z)
    (results : SearchResults) :
  search (CourseSearchTool.store self) query course_name lesson_number
  = Ok results →
  truthy_opt_str (error results) = false →
  documents results = [] →
  CourseSearchTool.execute self query course_name lesson_number
  = ("No relevant content found" +:+
     match course_name with
     | Some (String c name) => " in course '" +:+ String c name +:+ "'"
     | _ => ""
     end +:+
     match lesson_number with
     | Some n => if decide (n = 0) then "" else " in lesson " +:+ pretty n
     | None => ""
     end +:+ ".",
     self).
Proof.
  intros Hsearch Herr Hdocs.
  rewrite (execute_no_results self query course_name lesson_number results
             Hsearch Herr) by (unfold is_empty; by rewrite Hdocs).
  f_equal. f_equal. rewrite string_app_assoc. f_equal.
  - by destruct course_name as [[|c name]|].
  - f_equal. destruct lesson_number as [n|]; simpl; [|done].
    case_decide as Hn; [by subst|].
    by apply Z.eqb_neq in Hn as ->.
Qed.

Lemma execute_no_results_message_witness :
  CourseSearchTool.execute (J := Samples.sample_json) Samples.search_tool
    "Unknown topic" (Some "MCP") (Some 3)
  = ("No relevant content found in course 'MCP' in lesson 3.",
     Samples.search_tool).
Proof.
  apply (execute_no_results_message (J := Samples.sample_json)
           Samples.search_tool "Unknown topic" (Some "MCP") (Some 3)
           Samples.no_results); reflexivity.
Defined.

(** X9: when the backend returns documents but one of the link lookups
    needed for a paired chunk raises, [execute] returns a text that starts
    with "Search tool error: " and the tool is left exactly as it was: no
    citation record of the failed call is stored. *)
Theorem execute_lookup_failure {J : Json} (self : CourseSearchTool.t)
    (query : string) (course_name : option string) (lesson_number : option Z)
    (results : SearchResults) :
  search (CourseSearchTool.store self) query course_name lesson_number
  = Ok results →
  truthy_opt_str (error results) = false →
  is_empty results = false →
  ¬ Forall (CourseSearchTool.links_resolve self)
      (zip (documents results) (metadata results)).*2 →
  ∃ e,
    CourseSearchTool.execute self query course_name lesson_number
    = ("Search tool error: " +:+ exn_msg e, self).
Proof.
  intros Hsearch Herr Hempty Hfail.
  unfold CourseSearchTool.execute, CourseSearchTool.execute_body.
  rewrite Hsearch; simpl. rewrite Herr, Hempty.
  destruct (CourseSearchTool._format_results self results) as [r|e] eqn:Hfmt.
  - destruct Hfail. by eapply format_results_Ok_resolves.
  - by exists e.
Qed.

Lemma execute_lookup_failure_witness :
  ∃ e,
    CourseSearchTool.execute (J := Samples.sample_json)
      MoreSamples.linkless_tool "What is RAG?" None None
    = ("Search tool error: " +:+ exn_msg e, MoreSamples.linkless_tool).
Proof.
  apply (execute_lookup_failure (J := Samples.sample_json)
           MoreSamples.linkless_tool "What is RAG?" None None
           Samples.rag_results); [reflexivity..|].
  intros Hall. apply Forall_cons in Hall as [[[link Hlink] _] _].
  discriminate Hlink.
Defined.

(** X10: an invocation that formats results overwrites the citation list:
    text and stored records are the same whatever list the tool held before
    the call. *)
Theorem execute_overwrites_held {J : Json} (self : CourseSearchTool.t)
    (held : list Source) (query : string) (course_name : option string)
    (lesson_number : option Z) (results : SearchResults) (text : string)
    (self' : CourseSearchTool.t) :
  search (CourseSearchTool.store self) query course_name lesson_number
  = Ok results →
  truthy_opt_str (error results) = false →
  is_empty results = false →
  CourseSearchTool._format_results self results = Ok (text, self') →
  CourseSearchTool.execute self query course_name lesson_number
  = (text, self')
  ∧ CourseSearchTool.execute (CourseSearchTool.set_last_sources self held)
      query course_name lesson_number
    = (text, self').
Proof.
  intros Hsearch Herr Hempty Hfmt.
  split; [by apply (execute_formats self _ _ _ results)|].
  apply (execute_formats _ _ _ _ results); [done..|].
  revert Hfmt. unfold CourseSearchTool._format_results.
  by rewrite format_loop_held.
Qed.

Lemma execute_overwrites_held_witness :
  ∃ text self',
    CourseSearchTool.execute (J := Samples.sample_json) Samples.search_tool
      "What is RAG?" None None = (text, self')
    ∧ CourseSearchTool.execute (J := Samples.sample_json)
        MoreSamples.holding_tool "What is RAG?" None None = (text, self')
    ∧ length (CourseSearchTool.last_sources self') = 2%nat.
Proof.
  destruct (CourseSearchTool._format_results (J := Samples.sample_json)
              Samples.search_tool Samples.rag_results)
    as [[text self']|e] eqn:Hfmt; [|by vm_compute in Hfmt].
  exists text, self'.
  destruct (execute_overwrites_held (J := Samples.sample_json)
              Samples.search_tool [MoreSamples.earlier_citation]
              "What is RAG?" None None Samples.rag_results text self'
              eq_refl eq_refl eq_refl Hfmt) as [H1 H2].
  split; [exact H1|]. split; [exact H2|].
  vm_compute in Hfmt. by injection Hfmt as _ <-.
Defined.

Section SessionInvariant.
Import CourseSearchTool SearchSession.
Context {J : Json}.

(** One call either leaves the citation list alone or stores a well
    numbered one. *)
Lemma execute_keeps_or_renumbers (self : t) query course_name lesson_number :
  last_sources (execute self query course_name lesson_number).2
  = last_sources self
  ∨ well_numbered
      (last_sources (execute self query course_name lesson_number).2).
Proof.
  unfold execute, execute_body.
  destruct (search (store self) query course_name lesson_number)
    as [results|e]; simpl; [|by left].
  destruct (truthy_opt_str (error results)); simpl; [by left|].
  destruct (is_empty results); simpl; [by left|].
  destruct (_format_results self results) as [[text self']|e] eqn:Hfmt;
    simpl; [right|by left].
  pose proof (format_results_Ok_resolves _ _ _ Hfmt) as Hlinks.
  destruct (format_results_zip_spec self results Hlinks)
    as (cited & Hfmt' & Hpairs & _ & Hnum).
  rewrite Hfmt in Hfmt'. injection Hfmt' as _ ->. simpl.
  split; [|done]. rewrite Hpairs. apply distinct_first_seen_NoDup.
Qed.

End SessionInvariant.

(** X11: after any sequence of [execute] calls on a freshly constructed
    Content Search tool, whatever the arguments and whatever the backend
    answers or raises at each call, the stored citation list has at most one
    record per (course title, lesson number) pair and its citation numbers
    are 1, 2, ..., k. *)
Theorem search_tool_citations_well_numbered {J : Json}
    (vector_store : VectorStore) (calls : list SearchSession.call) :
  SearchSession.well_numbered
    (CourseSearchTool.last_sources
       (SearchSession.execute_all
          (CourseSearchTool.__init__ vector_store) calls)).
Proof.
  assert (SearchSession.well_numbered
            (CourseSearchTool.last_sources
               (CourseSearchTool.__init__ vector_store))) as Hinit.
  { split; simpl; [constructor|done]. }
  revert Hinit. generalize (CourseSearchTool.__init__ vector_store) as self.
  induction calls as [|c calls IH]; intros self Hself; simpl; [done|].
  apply IH.
  destruct (execute_keeps_or_renumbers
              (SearchSession.set_store self (SearchSession.call_store c))
              (SearchSession.call_query c) (SearchSession.call_course_name c)
              (SearchSession.call_lesson_number c)) as [->|Hnew]; done.
Qed.

(** X12: when [_format_results] completes, the text is the blocks of the
    chunks that [zip] pairs up, joined by blank lines: every paired document
    occurs in the text right after its header line, documents beyond the
    length of the metadata sequence are left out, and there are at most as
    many citation records as paired chunks. *)
Theorem format_results_text {J : Json} (self self' : CourseSearchTool.t)
    (results : SearchResults) (text : string) :
  CourseSearchTool._format_results self results = Ok (text, self') →
  text
  = join (newline +:+ newline)
      (CourseSearchTool.block_of
         <$> zip (documents results) (metadata results))
  ∧ (∀ i doc meta,
       documents results !! i = Some doc →
       metadata results !! i = Some meta →
       contains text
         (CourseSearchTool.header_of (CourseSearchTool.meta_title meta)
            (md_lesson_number meta) +:+ newline +:+ doc))
  ∧ (length (CourseSearchTool.last_sources self')
     ≤ length (documents results) `min` length (metadata results))%nat.
Proof.
  intros Hfmt.
  pose proof (format_results_Ok_resolves _ _ _ Hfmt) as Hlinks.
  destruct (format_results_zip_spec self results Hlinks)
    as (cited & Hfmt' & Hpairs & _ & _).
  rewrite Hfmt in Hfmt'. injection Hfmt' as -> ->.
  split; [done|]. split.
  - intros i doc meta Hdoc Hmeta. apply join_contains.
    apply (list_elem_of_fmap_2 CourseSearchTool.block_of _ (doc, meta)).
    apply (list_elem_of_lookup_2 _ i). by apply lookup_zip_Some.
  - simpl. rewrite <-(length_fmap CourseSearchTool.source_pair), Hpairs.
    etrans; [apply distinct_first_seen_length|].
    by rewrite !length_fmap, length_zip.
Qed.

Lemma format_results_text_witness :
  ∃ text self',
    CourseSearchTool._format_results (J := Samples.sample_json)
      Samples.search_tool MoreSamples.surplus_results = Ok (text, self')
    ∧ text
      = join (newline +:+ newline)
          [ "[Introduction to RAG Systems - Lesson 0]" +:+ newline +:+
            "First passage.";
            "[Introduction to RAG Systems - Lesson 1]" +:+ newline +:+
            "Second passage." ]
    ∧ (length (CourseSearchTool.last_sources self') ≤ 2)%nat.
Proof.
  destruct (CourseSearchTool._format_results (J := Samples.sample_json)
              Samples.search_tool MoreSamples.surplus_results)
    as [[text self']|e] eqn:Hfmt; [|by vm_compute in Hfmt].
  exists text, self'. split; [reflexivity|].
  destruct (format_results_text (J := Samples.sample_json)
              Samples.search_tool self' MoreSamples.surplus_results text Hfmt)
    as (Htext & _ & Hlen).
  split; [exact Htext|exact Hlen].
Defined.

Section LessonTitle.
Import CourseSearchTool.

Implicit Types (lessons : list LessonDict) (lesson : LessonDict) (n : Z).

(** The scan returns the title of the first lesson with the number. *)
Lemma find_lesson_title_listed lessons lesson n :
  NoDup (ld_lesson_number <$> lessons) →
  lesson ∈ lessons →
  ld_lesson_number lesson = Some n →
  find_lesson_title lessons n = ld_lesson_title lesson.
Proof.
  intros Hnodup Hin Hn.
  induction lessons as [|head rest IH]; [by apply not_elem_of_nil in Hin|].
  rewrite fmap_cons, NoDup_cons in Hnodup. destruct Hnodup as [Hhead Hrest].
  cbn [find_lesson_title]. apply elem_of_cons in Hin as [->|Hin].
  - by rewrite decide_True.
  - case_decide as Hheadn; [|by apply IH].
    destruct Hhead. rewrite Hheadn, <-Hn. by apply list_elem_of_fmap_2.
Qed.

Lemma find_lesson_title_absent lessons n :
  (∀ lesson, lesson ∈ lessons → ld_lesson_number lesson ≠ Some n) →
  find_lesson_title lessons n = None.
Proof.
  induction lessons as [|head rest IH]; intros Hnone; [done|].
  cbn [find_lesson_title]. rewrite decide_False by (apply Hnone; by left).
  apply IH. intros lesson Hin. apply Hnone. by right.
Qed.

End LessonTitle.

(** X13: when the catalog has metadata for the course and its serialized
    lesson list parses, [_get_lesson_title] gives the title stored with the
    lesson that carries the requested number (lesson numbers being distinct),
    and [None] when no listed lesson carries that number. *)
Theorem get_lesson_title_of_listed_lesson {J : Json}
    (self : CourseSearchTool.t) (title : string) (n : Z)
    (metadata : CatalogMeta) (others : list CatalogMeta)
    (lessons_json : string) (lessons : list LessonDict) :
  course_catalog_get (CourseSearchTool.store self) title
  = Ok (Some {| metadatas := Some (metadata :: others) |}) →
  cm_lessons_json metadata = Some lessons_json →
  lessons_json ≠ "" →
  json_loads lessons_json = Ok lessons →
  (∀ lesson,
     NoDup (ld_lesson_number <$> lessons) →
     lesson ∈ lessons →
     ld_lesson_number lesson = Some n →
     CourseSearchTool._get_lesson_title self title n = ld_lesson_title lesson)
  ∧ ((∀ lesson, lesson ∈ lessons → ld_lesson_number lesson ≠ Some n) →
     CourseSearchTool._get_lesson_title self title n = None).
Proof.
  intros Hget Hjson Hne Hparse.
  assert (CourseSearchTool._get_lesson_title self title n
          = CourseSearchTool.find_lesson_title lessons n) as ->.
  { unfold CourseSearchTool._get_lesson_title,
      CourseSearchTool._get_lesson_title_body.
    rewrite Hget; simpl. rewrite Hjson.
    destruct lessons_json; [done|]; simpl. by rewrite Hparse. }
  split.
  - intros lesson. apply find_lesson_title_listed.
  - apply find_lesson_title_absent.
Qed.

Lemma get_lesson_title_of_listed_lesson_witness :
  CourseSearchTool._get_lesson_title (J := Samples.sample_json)
    Samples.search_tool Samples.rag_title 1 = Some "Vector Embeddings"
  ∧ CourseSearchTool._get_lesson_title (J := Samples.sample_json)
      Samples.search_tool Samples.rag_title 7 = None.
Proof.
  split.
  - apply (proj1 (get_lesson_title_of_listed_lesson (J := Samples.sample_json)
             Samples.search_tool Samples.rag_title 1 _ []
             Samples.rag_lessons_json Samples.rag_lessons
             eq_refl eq_refl ltac:(discriminate) eq_refl)
             {| ld_lesson_number := Some 1;
                ld_lesson_title := Some "Vector Embeddings";
                ld_lesson_link :=
                  Some "https://example.com/rag-course/lesson-1" |}).
    + apply (bool_decide_unpack _). by vm_compute.
    + right. left.
    + reflexivity.
  - apply (proj2 (get_lesson_title_of_listed_lesson (J := Samples.sample_json)
             Samples.search_tool Samples.rag_title 7 _ []
             Samples.rag_lessons_json Samples.rag_lessons
             eq_refl eq_refl ltac:(discriminate) eq_refl)).
    intros lesson Hin.
    apply elem_of_cons in Hin as [->|Hin]; [done|].
    apply elem_of_cons in Hin as [->|Hin]; [done|].
    by apply not_elem_of_nil in Hin.
Defined.

(** * Further properties of the Outline Lookup tool *)

Section StableSort.
Import CourseOutlineTool.

Implicit Types (x : LessonDict) (l : list LessonDict) (k : Z).

Lemma insert_by_key_filter x l k :
  filter (λ y, sort_key y = k) (insert_by_key x l)
  = filter (λ y, sort_key y = k) (x :: l).
Proof.
  induction l as [|y l IH]; cbn [insert_by_key]; [done|].
  case_decide as Hxy; [done|].
  rewrite (filter_cons _ y), IH, !(filter_cons _ x), (filter_cons _ y).
  repeat case_decide; try done. lia.
Qed.

Lemma sorted_filter l k :
  filter (λ y, sort_key y = k) (sorted l) = filter (λ y, sort_key y = k) l.
Proof.
  induction l as [|x l IH]; [done|]. cbn [sorted].
  by rewrite insert_by_key_filter, !filter_cons, IH.
Qed.

Lemma insert_by_key_HdRel_cons x l :
  HdRel key_le x l → insert_by_key x l = x :: l.
Proof.
  destruct 1 as [|y l Hxy]; cbn [insert_by_key]; [done|].
  by rewrite decide_True.
Qed.

Lemma sorted_of_Sorted l : Sorted key_le l → sorted l = l.
Proof.
  induction 1 as [|x l Hl IH Hx]; [done|]. cbn [sorted].
  rewrite IH. by apply insert_by_key_HdRel_cons.
Qed.

End StableSort.

(** X14: the order in which [_format_outline] renders the lessons of any
    list: ascending by sort key, a rearrangement of the stored lessons, and
    stable, that is, the lessons that share a sort key appear in the order
    in which they are stored. *)
Theorem sorted_ascending_stable (lessons : list LessonDict) :
  Sorted CourseOutlineTool.key_le (CourseOutlineTool.sorted lessons)
  ∧ CourseOutlineTool.sorted lessons ≡ₚ lessons
  ∧ ∀ k,
      filter (λ x, CourseOutlineTool.sort_key x = k)
        (CourseOutlineTool.sorted lessons)
      = filter (λ x, CourseOutlineTool.sort_key x = k) lessons.
Proof.
  split; [apply sorted_Sorted|].
  split; [apply sorted_Permutation|]. intros k. apply sorted_filter.
Qed.

(** X15: a lesson list that is stored in ascending order of lesson number
    (equal numbers allowed) is rendered in the stored order. *)
Theorem format_outline_keeps_ascending_input
    (title course_link instructor : string) (lessons : list LessonDict) :
  Sorted CourseOutlineTool.key_le lessons →
  CourseOutlineTool.sorted lessons = lessons
  ∧ CourseOutlineTool._format_outline title course_link instructor lessons
    = join newline
        (CourseOutlineTool.header_lines title course_link instructor lessons
         ++ (CourseOutlineTool.lesson_line <$> lessons)).
Proof.
  intros Hsorted. unfold CourseOutlineTool._format_outline.
  by rewrite sorted_of_Sorted.
Qed.

Lemma format_outline_keeps_ascending_input_witness :
  CourseOutlineTool.sorted [Samples.first_lesson; Samples.part_a; Samples.part_b]
  = [Samples.first_lesson; Samples.part_a; Samples.part_b]
  ∧ CourseOutlineTool._format_outline "Test Course" "No link available"
      "Unknown" [Samples.first_lesson; Samples.part_a; Samples.part_b]
    = join newline
        (CourseOutlineTool.header_lines "Test Course" "No link available"
           "Unknown" [Samples.first_lesson; Samples.part_a; Samples.part_b]
         ++ (CourseOutlineTool.lesson_line
               <$> [Samples.first_lesson; Samples.part_a; Samples.part_b])).
Proof.
  apply (format_outline_keeps_ascending_input "Test Course"
           "No link available" "Unknown"
           [Samples.first_lesson; Samples.part_a; Samples.part_b]).
  repeat constructor; by vm_compute.
Defined.

Section OutlineText.
Import CourseOutlineTool.

Lemma contains_trans (s1 s2 s3 : string) :
  contains s1 s2 → contains s2 s3 → contains s1 s3.
Proof.
  intros (pre & post & ->) Hs3.
  by apply contains_app_r, contains_app_l.
Qed.

Lemma header_lines_course title course_link instructor lessons :
  "Course: " +:+ title ∈ header_lines title course_link instructor lessons.
Proof.
  unfold header_lines.
  destruct (_ && _), (_ && _); rewrite ?elem_of_app, ?elem_of_cons; tauto.
Qed.

Lemma header_lines_total title course_link instructor lessons :
  newline +:+ "Lessons (" +:+ pretty (length lessons) +:+ " total):"
  ∈ header_lines title course_link instructor lessons.
Proof.
  unfold header_lines. rewrite elem_of_app, list_elem_of_singleton. by right.
Qed.

End OutlineText.

(** X16: when the resolver names a course, the catalog has metadata for it
    and the serialized lesson list parses to a non-empty list, [execute] of
    the Outline Lookup tool returns the formatted outline and leaves the tool
    as it was; the text names the resolved course title, announces the
    number of stored lessons, and contains the line of every stored
    lesson. *)
Theorem outline_execute_lists_every_lesson {J : Json}
    (self : CourseOutlineTool.t) (course_name title : string)
    (metadata : CatalogMeta) (others : list CatalogMeta)
    (lessons_json : string) (lessons : list LessonDict) :
  _resolve_course_name (CourseOutlineTool.store self) course_name
  = Ok (Some title) →
  title ≠ "" →
  course_catalog_get (CourseOutlineTool.store self) title
  = Ok (Some {| metadatas := Some (metadata :: others) |}) →
  cm_lessons_json metadata = Some lessons_json →
  lessons_json ≠ "" →
  json_loads lessons_json = Ok lessons →
  lessons ≠ [] →
  ∃ text,
    CourseOutlineTool.execute self course_name = (text, self)
    ∧ text
      = CourseOutlineTool._format_outline title
          (default "No link available" (cm_course_link metadata))
          (default "Unknown" (cm_instructor metadata)) lessons
    ∧ contains text ("Course: " +:+ title)
    ∧ contains text
        ("Lessons (" +:+ pretty (length lessons) +:+ " total):")
    ∧ ∀ lesson,
        lesson ∈ lessons →
        contains text (CourseOutlineTool.lesson_line lesson).
Proof.
  intros Hresolve Htitle Hget Hjson Hne Hparse Hlessons.
  eexists. split; [|split; [reflexivity|]].
  - unfold CourseOutlineTool.execute, CourseOutlineTool.execute_body.
    rewrite Hresolve; simpl. destruct title; [done|]; simpl.
    rewrite Hget; simpl. rewrite Hjson.
    destruct lessons_json; [done|]; simpl. rewrite Hparse; simpl.
    by destruct lessons.
  - unfold CourseOutlineTool._format_outline.
    change (map ?f ?l) with (f <$> l).
    split; [|split].
    + apply join_contains. rewrite elem_of_app. left.
      apply header_lines_course.
    + eapply contains_trans.
      * apply join_contains. rewrite elem_of_app. left.
        apply header_lines_total.
      * apply contains_app_r, contains_refl.
    + intros lesson Hin. apply join_contains. rewrite elem_of_app. right.
      apply list_elem_of_fmap_2. by rewrite sorted_Permutation.
Qed.

Lemma outline_execute_lists_every_lesson_witness :
  ∃ text,
    CourseOutlineTool.execute (J := Samples.sample_json) Samples.outline_tool
      "RAG Systems" = (text, Samples.outline_tool)
    ∧ text
      = CourseOutlineTool._format_outline Samples.rag_title Samples.rag_link
          "Dr. Jane Smith" Samples.rag_lessons
    ∧ contains text ("Course: " +:+ Samples.rag_title)
    ∧ contains text "Lessons (2 total):"
    ∧ ∀ lesson,
        lesson ∈ Samples.rag_lessons →
        contains text (CourseOutlineTool.lesson_line lesson).
Proof.
  apply (outline_execute_lists_every_lesson (J := Samples.sample_json)
           Samples.outline_tool "RAG Systems" Samples.rag_title
           {| cm_course_link := Some Samples.rag_link;
              cm_instructor := Some "Dr. Jane Smith";
              cm_lessons_json := Some Samples.rag_lessons_json |} []
           Samples.rag_lessons_json Samples.rag_lessons);
    try reflexivity; discriminate.
Defined.

Section RepeatedDrainFacts.
Import ToolManager RepeatedDrain.

(** A drain takes the first holder's records out and leaves the rest. *)
Lemma drain_citations (d : list (string * Tool)) :
  concat (map (λ kv, default [] (ToolOps.last_sources kv.2)) d)
  = (drain d).1
    ++ concat (map (λ kv, default [] (ToolOps.last_sources kv.2)) (drain d).2).
Proof.
  induction d as [|kv d IH]; [done|]. cbn [drain].
  destruct (holds kv.2) eqn:Hkv; simpl.
  - by rewrite (not_holds_no_sources _ (holds_reset kv.2)).
  - by rewrite not_holds_no_sources, IH.
Qed.

Lemma drain_times_all (n : nat) (m : ToolManager.t) :
  holders m = n →
  concat (drain_times n m).1 = all_citations m
  ∧ all_drained (drain_times n m).2.
Proof.
  revert m. induction n as [|n IH]; intros m Hn.
  - apply no_holders_Forall in Hn. split; [|done].
    unfold all_citations. by rewrite no_holder_citations.
  - destruct (IH (get_last_sources m).2) as [Hcat Hall].
    { unfold holders, get_last_sources in *; simpl.
      rewrite drain_holders. lia. }
    cbn [drain_times fst snd]. split; [|done].
    rewrite concat_cons, Hcat.
    unfold all_citations, get_last_sources; simpl.
    by rewrite <-drain_citations.
Qed.

End RepeatedDrainFacts.

(** X17: calling [get_last_sources] as many times in a row as there are
    tools holding citation records hands over, list by list, all records
    held by the registered tools in registration order of their owners, and
    leaves no tool holding a record. *)
Theorem repeated_drain_collects_all (m : ToolManager.t) :
  concat (RepeatedDrain.drain_times (ToolManager.holders m) m).1
  = ToolManager.all_citations m
  ∧ ToolManager.all_drained
      (RepeatedDrain.drain_times (ToolManager.holders m) m).2.
Proof. by apply drain_times_all. Qed.

(** X18: the early exits of [execute] of the Outline Lookup tool, each
    leaving the tool as it was.  When the resolver answers no title (or an
    empty one) the text is the no-course-found message naming the input.
    For a resolved title: when the catalog answers without metadata the
    text is the no-metadata message naming the resolved title; when the
    metadata has no (or an empty) serialized lesson list it is the
    no-lessons-information message naming the title; when the list parses
    to an empty list it is the empty-lessons message naming the title. *)
Theorem outline_execute_early_exits {J : Json} (self : CourseOutlineTool.t)
    (course_name : string) :
  (∀ resolved,
     _resolve_course_name (CourseOutlineTool.store self) course_name
     = Ok resolved →
     truthy_opt_str resolved = false →
     CourseOutlineTool.execute self course_name
     = ("No course found matching '" +:+ course_name +:+
        "'. Please try a different course name or check available courses.",
        self))
  ∧ (∀ title,
       _resolve_course_name (CourseOutlineTool.store self) course_name
       = Ok (Some title) →
       title ≠ "" →
       (∀ results,
          course_catalog_get (CourseOutlineTool.store self) title
          = Ok results →
          (∀ metadata others,
             results ≠ Some {| metadatas := Some (metadata :: others) |}) →
          CourseOutlineTool.execute self course_name
          = ("Course '" +:+ title +:+
             "' exists but has no metadata available.", self))
       ∧ (∀ metadata others,
            course_catalog_get (CourseOutlineTool.store self) title
            = Ok (Some {| metadatas := Some (metadata :: others) |}) →
            (truthy_opt_str (cm_lessons_json metadata) = false →
             CourseOutlineTool.execute self course_name
             = ("Course '" +:+ title +:+
                "' has no lessons information available.", self))
            ∧ (∀ lessons_json,
                 cm_lessons_json metadata = Some lessons_json →
                 lessons_json ≠ "" →
                 json_loads lessons_json = Ok [] →
                 CourseOutlineTool.execute self course_name
                 = ("Course '" +:+ title +:+
                    "' has an empty lessons list.", self)))).
Proof.
  unfold CourseOutlineTool.execute, CourseOutlineTool.execute_body. split.
  - intros resolved -> Hfalsy; simpl. by rewrite Hfalsy.
  - intros title -> Htitle; simpl.
    destruct title as [|c title]; [done|]; simpl. split.
    + intros results -> Hnone; simpl.
      destruct results as [[[[|metadata others]|]]|]; try done.
      by destruct (Hnone metadata others).
    + intros metadata others ->; simpl. split.
      * by intros ->.
      * intros js -> Hjs Hparse. destruct js; [done|]; simpl.
        by rewrite Hparse.
Qed.

Lemma outline_execute_early_exits_witness :
  CourseOutlineTool.execute (J := Samples.sample_json) Samples.outline_tool
    "Nonexistent Course"
  = ("No course found matching 'Nonexistent Course'. Please try a different course name or check available courses.",
     Samples.outline_tool).
Proof.
  apply (proj1 (outline_execute_early_exits (J := Samples.sample_json)
                  Samples.outline_tool "Nonexistent Course") None);
    reflexivity.
Defined.

(** X19: when [_format_results] completes, a paired chunk whose metadata
    has no lesson number gets the block header "[<course title>]", with
    "unknown" for the title when the metadata has no course title either,
    and its (course title, no lesson) pair has a citation record without
    lesson link and without lesson title, whose course link is the one
    looked up for the title. *)
Theorem format_results_without_lesson {J : Json}
    (self self' : CourseSearchTool.t) (results : SearchResults)
    (text : string) (i : nat) (doc : string) (meta : ChunkMeta) :
  CourseSearchTool._format_results self results = Ok (text, self') →
  documents results !! i = Some doc →
  metadata results !! i = Some meta →
  md_lesson_number meta = None →
  contains text
    ("[" +:+ default "unknown" (md_course_title meta) +:+ "]" +:+
     newline +:+ doc)
  ∧ ∃ s,
      s ∈ CourseSearchTool.last_sources self'
      ∧ course_title s = default "unknown" (md_course_title meta)
      ∧ lesson_number s = None
      ∧ lesson_link s = None
      ∧ lesson_title s = None
      ∧ get_course_link (CourseSearchTool.store self) (course_title s)
        = Ok (course_link s).
Proof.
  intros Hfmt Hdoc Hmeta Hnone.
  pose proof (format_results_Ok_resolves _ _ _ Hfmt) as Hlinks.
  destruct (format_results_zip_spec self results Hlinks)
    as (cited & Hfmt' & Hpairs & Hlooked & _).
  rewrite Hfmt in Hfmt'. injection Hfmt' as -> ->.
  assert ((doc, meta) ∈ zip (documents results) (metadata results)) as Hin.
  { apply (list_elem_of_lookup_2 _ i). by apply lookup_zip_Some. }
  split.
  - assert (CourseSearchTool.block_of (doc, meta)
            = "[" +:+ default "unknown" (md_course_title meta) +:+ "]" +:+
              newline +:+ doc) as <-.
    { unfold CourseSearchTool.block_of, CourseSearchTool.header_of; simpl.
      rewrite Hnone. by rewrite !string_app_assoc. }
    by apply join_contains, list_elem_of_fmap_2.
  - assert (CourseSearchTool.pair_of meta
              ∈ CourseSearchTool.source_pair <$> cited) as Hpair.
    { rewrite Hpairs, elem_of_distinct_first_seen.
      apply list_elem_of_fmap_2.
      by apply (list_elem_of_fmap_2 snd _ (doc, meta)). }
    apply list_elem_of_fmap in Hpair as (s & Hs & Hcited).
    unfold CourseSearchTool.pair_of, CourseSearchTool.source_pair in Hs.
    rewrite Hnone in Hs. injection Hs as Htitle Hlesson.
    rewrite Forall_forall in Hlooked.
    destruct (Hlooked s Hcited) as [Hcourse Hless].
    rewrite <-Hlesson in Hless. destruct Hless as [Hlink Hltitle].
    exists s. simpl. by repeat split.
Qed.

Lemma format_results_without_lesson_witness :
  ∃ text self',
    CourseSearchTool._format_results (J := Samples.sample_json)
      Samples.search_tool
      {| documents := ["An overview."];
         metadata := [{| md_course_title := None; md_lesson_number := None |}];
         error := None |}
    = Ok (text, self')
    ∧ contains text ("[unknown]" +:+ newline +:+ "An overview.")
    ∧ ∃ s,
        s ∈ CourseSearchTool.last_sources self'
        ∧ course_title s = "unknown"
        ∧ lesson_number s = None
        ∧ lesson_link s = None
        ∧ lesson_title s = None
        ∧ get_course_link Samples.sample_store (course_title s)
          = Ok (course_link s).
Proof.
  eexists _, _. split; [reflexivity|].
  apply (format_results_without_lesson (J := Samples.sample_json)
           Samples.search_tool _
           {| documents := ["An overview."];
              metadata :=
                [{| md_course_title := None; md_lesson_number := None |}];
              error := None |} _ 0 "An overview."
           {| md_course_title := None; md_lesson_number := None |});
    reflexivity.
Defined.
